(** * SkyVision object detection service: the request handlers of [utils/app.py]

    A shallow embedding of the Flask handlers [predict] and [health_check]
    and of the library functions they call, followed by the properties of
    the upload / validate / infer / persist / respond pipeline.

    Conventions of the embedding.
    - Python [str] is [string]; the embedding is exact for ASCII text
      (file names outside ASCII are not covered: [lower] and
      [secure_filename] below treat characters from 128 on as caseless and
      unsafe respectively).
    - Python [dict] is a [gmap]; the file system is a [gmap] from path to
      file content.
    - Code that can raise runs in the monad [M]: a world (file system and a
      log of the external calls made) is threaded through, and a computation
      ends in a value or in an [Exception].  [try_except] is the [try] /
      [except Exception] statement. *)

From Stdlib Require Import ZArith String Ascii List Bool Lia.
From Stdlib Require QArith.
From Stdlib Require Import DecimalString.
From Stdlib Require DecimalZ DecimalPos.
From stdpp Require Import gmap strings list fin_maps.

Local Open Scope string_scope.

(** ** Python string primitives *)

Module PyStr.

(** [c in 'A'..'Z'] *)
Definition is_upper (c : ascii) : bool :=
  (Nat.leb 65 (nat_of_ascii c)) && (Nat.leb (nat_of_ascii c) 90).

(** [str.lower] on one character. *)
Definition lower_char (c : ascii) : ascii :=
  if is_upper c then ascii_of_nat (nat_of_ascii c + 32) else c.

(** [s.lower()] *)
Fixpoint lower (s : string) : string :=
  match s with
  | EmptyString => EmptyString
  | String c r => String (lower_char c) (lower r)
  end.

(** ['.' in s] *)
Fixpoint contains_dot (s : string) : bool :=
  match s with
  | EmptyString => false
  | String c r => if Ascii.eqb c "." then true else contains_dot r
  end.

(** The cut of [s] at its last dot: [Some (before, after)], or [None] when
    [s] has no dot. *)
Fixpoint cut_last_dot (s : string) : option (string * string) :=
  match s with
  | EmptyString => None
  | String c r =>
      match cut_last_dot r with
      | Some (b, a) => Some (String c b, a)
      | None => if Ascii.eqb c "." then Some (EmptyString, r) else None
      end
  end.

(** [s.rsplit('.', 1)]: at most one split, taken from the right. *)
Definition rsplit_dot_1 (s : string) : list string :=
  match cut_last_dot s with
  | Some (b, a) => [b; a]
  | None => [s]
  end.

(** [l[0]] and [l[-1]] on the (never empty) result of a split. *)
Definition item_0 (l : list string) : string := List.hd EmptyString l.
Definition item_last (l : list string) : string := List.last l EmptyString.

(** [sep.join(l)] *)
Fixpoint join (sep : string) (l : list string) : string :=
  match l with
  | [] => EmptyString
  | [x] => x
  | x :: r => x ++ sep ++ join sep r
  end.

(** [s[:n]] *)
Fixpoint take_prefix (n : nat) (s : string) : string :=
  match n, s with
  | S k, String c r => String c (take_prefix k r)
  | _, _ => EmptyString
  end.

(** [str(n)] for an [int]. *)
Definition str_of_int (z : Z) : string := NilZero.string_of_int (Z.to_int z).

(** [x in l] for a literal collection of strings. *)
Definition mem (x : string) (l : list string) : bool :=
  existsb (String.eqb x) l.

End PyStr.

(** ** Library functions called by the handler *)

(** *** [werkzeug.utils.secure_filename] (POSIX: [os.sep] is ["/"], there is
    no [os.path.altsep])

    The function first applies [unicodedata.normalize("NFKD", ..)] and
    [.encode("ascii", "ignore")].  On ASCII text the normalisation changes
    nothing and nothing is ignored; the model below is the function on
    ASCII file names, and a statement that says which base an upload gets
    carries the hypothesis that the file name is ASCII. *)

Module Werkzeug.

Definition code (c : ascii) : nat := nat_of_ascii c.

Definition between (lo hi : nat) (c : ascii) : bool :=
  Nat.leb lo (code c) && Nat.leb (code c) hi.

(** What survives [.encode("ascii", "ignore")]. *)
Definition is_ascii (c : ascii) : bool := Nat.ltb (code c) 128.

(** ASCII characters on which [str.split()] cuts. *)
Definition is_space (c : ascii) : bool :=
  between 9 13 c || between 28 32 c.

(** The complement of [_filename_ascii_strip_re = [^A-Za-z0-9_.-]]. *)
Definition is_safe (c : ascii) : bool :=
  between 65 90 c || between 97 122 c || between 48 57 c
  || Ascii.eqb c "_" || Ascii.eqb c "." || Ascii.eqb c "-".

Fixpoint filter_chars (p : ascii -> bool) (s : string) : string :=
  match s with
  | EmptyString => EmptyString
  | String c r => if p c then String c (filter_chars p r) else filter_chars p r
  end.

(** [s.replace(a, b)] for single characters. *)
Fixpoint replace_char (a b : ascii) (s : string) : string :=
  match s with
  | EmptyString => EmptyString
  | String c r => String (if Ascii.eqb c a then b else c) (replace_char a b r)
  end.

(** [s.split()]: the maximal runs of non-space characters. *)
Fixpoint split_ws (s : string) : list string :=
  match s with
  | EmptyString => []
  | String c r =>
      if is_space c then split_ws r
      else
        match r with
        | EmptyString => [String c EmptyString]
        | String c' _ =>
            if is_space c' then String c EmptyString :: split_ws r
            else
              match split_ws r with
              | w :: ws => String c w :: ws
              | [] => [String c EmptyString]
              end
        end
  end.

(** [s.lstrip(chars)], [s.rstrip(chars)], [s.strip(chars)] *)
Fixpoint lstrip (p : ascii -> bool) (s : string) : string :=
  match s with
  | EmptyString => EmptyString
  | String c r => if p c then lstrip p r else s
  end.

Fixpoint rstrip (p : ascii -> bool) (s : string) : string :=
  match s with
  | EmptyString => EmptyString
  | String c r =>
      match rstrip p r with
      | EmptyString => if p c then EmptyString else String c EmptyString
      | r' => String c r'
      end
  end.

Definition strip (p : ascii -> bool) (s : string) : string :=
  rstrip p (lstrip p s).

Definition dot_or_underscore (c : ascii) : bool :=
  Ascii.eqb c "." || Ascii.eqb c "_".

Definition secure_filename (filename : string) : string :=
  let filename := filter_chars is_ascii filename in
  let filename := replace_char "/" " " filename in
  strip dot_or_underscore
    (filter_chars is_safe (PyStr.join "_" (split_ws filename))).

End Werkzeug.

(** *** [uuid], [os.path], [flask.url_for] *)

Module PyLib.

Definition hex_digit (d : N) : ascii :=
  match d with
  | 0 => "0" | 1 => "1" | 2 => "2" | 3 => "3" | 4 => "4" | 5 => "5"
  | 6 => "6" | 7 => "7" | 8 => "8" | 9 => "9" | 10 => "a" | 11 => "b"
  | 12 => "c" | 13 => "d" | 14 => "e" | _ => "f"
  end%N%char.

(** The [k]-th of the [w] hexadecimal digits of [n], most significant first. *)
Definition nibble (w : nat) (n : N) (k : nat) : ascii :=
  hex_digit ((n / 16 ^ N.of_nat (w - 1 - k)) mod 16)%N.

(** ['%032x' % n] for a 128-bit [n]. *)
Definition hex32 (n : N) : string :=
  string_of_list_ascii (List.map (nibble 32 n) (List.seq 0 32)).

(** [str(u)] for a [uuid.UUID] whose [int] is [n]. *)
Definition uuid_str (n : N) : string :=
  let h := hex32 n in
  String.substring 0 8 h ++ "-" ++ String.substring 8 4 h ++ "-" ++
  String.substring 12 4 h ++ "-" ++ String.substring 16 4 h ++ "-" ++
  String.substring 20 12 h.

(** [s.startswith('/')], [s.endswith('/')] *)
Definition starts_with_sep (s : string) : bool :=
  match s with String c _ => Ascii.eqb c "/" | EmptyString => false end.

Fixpoint ends_with_sep (s : string) : bool :=
  match s with
  | EmptyString => false
  | String c EmptyString => Ascii.eqb c "/"
  | String _ r => ends_with_sep r
  end.

(** [os.path.join(a, b)] of [posixpath]. *)
Definition os_path_join (a b : string) : string :=
  if starts_with_sep b then b
  else if (String.eqb a "" || ends_with_sep a)%bool then a ++ b
  else a ++ "/" ++ b.

(** [url_for('static', filename=f)] with Flask's default static route.  The
    route's path converter percent-encodes reserved characters; the file
    names built by [predict] contain none (see [unique_filename_chars]). *)
Definition url_for_static (filename : string) : string := "/static/" ++ filename.

End PyLib.


(** ** Data model *)

(** An instance of [Exception]; [message] is [str(e)]. *)
Record Exception := { message : string }.

(** [werkzeug.datastructures.FileStorage]: one part of the multipart body. *)
Record FileStorage := { filename : string; stream : list Byte.byte }.

(** [FileStorage.__bool__] is [bool(self.filename)]. *)
Definition FileStorage_bool (file : FileStorage) : bool :=
  negb (String.eqb (filename file) "").

(** [flask.request] of a request whose multipart body the framework has
    parsed (a body over [MAX_CONTENT_LENGTH] is turned down by the framework
    and is not a [Request] here); [files] is [request.files], keyed by field
    name. *)
Record Request := { files : gmap string FileStorage }.

(** One detection; [cls_0] is [int(box.cls[0])]. *)
Record Box := { cls_0 : Z }.

(** One element of the list returned by [model.predict]: the rendering
    [plot()] gives (or the exception it raises) and [boxes]. *)
Record Results := {
  plot : Exception + list Byte.byte;
  boxes : option (list Box)
}.

(** Keyword arguments of [model.predict]. *)
Record PredictArgs := {
  source : string;
  save : bool;
  conf : QArith_base.Q;
  iou : QArith_base.Q;
  verbose : bool
}.

(** The loaded detector, an opaque collaborator: its id-to-name table and
    what [predict] does on the files it can see. *)
Record YOLO := {
  names : gmap Z string;
  run : gmap string (list Byte.byte) -> PredictArgs -> Exception + list Results
}.

(** External calls, in the order they are made. *)
Inductive Event :=
| EvSave (path : string)
| EvPredict (path : string)
| EvPlot
| EvImageSave (path : string)
| EvRemove (path : string).

(** The world a handler runs in: the files on disk and the calls made. *)
Record World := {
  fs : gmap string (list Byte.byte);
  log : list Event
}.

(** What went wrong in a write, and the content left at the path, if any. *)
Definition WriteFailure : Type := Exception * option (list Byte.byte).

(** What the outside world decides during one request. *)
Record Env := {
  uuid4_int : N;                 (* uuid.uuid4().int *)
  time_time : Z;                 (* int(time.time()) *)
  set_order : list string;       (* iteration order of the set literal *)
  save_outcome : option WriteFailure;      (* file.save: None is success *)
  image_save_outcome :                     (* Image.fromarray(..).save *)
    list Byte.byte -> string -> WriteFailure + list Byte.byte;
  remove_outcome : option Exception        (* os.remove: None is success *)
}.

(** JSON values of the replies, and [flask.Response]. *)
Inductive JValue :=
| JStr (s : string)
| JInt (n : Z)
| JBool (b : bool)
| JCounts (m : gmap string nat).

Record Response := {
  body : list (string * JValue);
  status_code : nat
}.

(** ** The monad of code that can raise *)

Definition M (A : Type) : Type := World -> (Exception + A) * World.

Definition ret {A} (a : A) : M A := fun w => (inr a, w).

Definition raise {A} (e : Exception) : M A := fun w => (inl e, w).

Definition bind {A B} (c : M A) (k : A -> M B) : M B :=
  fun w =>
    match c w with
    | (inr a, w') => k a w'
    | (inl e, w') => (inl e, w')
    end.

(** [try: body except Exception as e: handler(e)] *)
Definition try_except {A} (body : M A) (handler : Exception -> M A) : M A :=
  fun w =>
    match body w with
    | (inr a, w') => (inr a, w')
    | (inl e, w') => handler e w'
    end.

Notation "'let!' x ':=' c 'in' k" := (bind c (fun x => k))
  (at level 10, x name, c at level 100, k at level 200).
Notation "'run!' c 'in' k" := (bind c (fun _ => k))
  (at level 10, c at level 100, k at level 200).

Definition emit (ev : Event) : M unit :=
  fun w => (inr tt, {| fs := fs w; log := (log w ++ [ev])%list |}).

Definition write_file (path : string) (data : list Byte.byte) : M unit :=
  fun w => (inr tt, {| fs := <[path := data]> (fs w); log := log w |}).

Definition delete_file (path : string) : M unit :=
  fun w => (inr tt, {| fs := delete path (fs w); log := log w |}).

Definition read_fs : M (gmap string (list Byte.byte)) :=
  fun w => (inr (fs w), w).

(** A write that failed: leave what it left, then raise. *)
Definition fail_write {A} (path : string) (f : WriteFailure) : M A :=
  match snd f with
  | Some partial => run! write_file path partial in raise (fst f)
  | None => raise (fst f)
  end.

(** ** The external calls of the handler, as computations *)

Section Calls.

Variable env : Env.

(** [file.save(path)]: the stream is copied to [path]. *)
Definition file_save (file : FileStorage) (path : string) : M unit :=
  run! emit (EvSave path) in
  match save_outcome env with
  | None => write_file path (stream file)
  | Some f => fail_write path f
  end.

(** [model.predict(source=.., save=.., conf=.., iou=.., verbose=..)] *)
Definition model_predict (model : YOLO) (args : PredictArgs) : M (list Results) :=
  run! emit (EvPredict (source args)) in
  let! disk := read_fs in
  match run model disk args with
  | inr results => ret results
  | inl e => raise e
  end.

(** [results[0]] *)
Definition results_0 (results : list Results) : M Results :=
  match results with
  | r :: _ => ret r
  | [] => raise {| message := "list index out of range" |}
  end.

(** [r.plot()] *)
Definition results_plot (r : Results) : M (list Byte.byte) :=
  run! emit EvPlot in
  match plot r with
  | inr img => ret img
  | inl e => raise e
  end.

(** [Image.fromarray(img.astype(np.uint8)).save(path)] *)
Definition image_save (img : list Byte.byte) (path : string) : M unit :=
  run! emit (EvImageSave path) in
  match image_save_outcome env img path with
  | inr encoded => write_file path encoded
  | inl f => fail_write path f
  end.

(** [os.path.getsize(path)] *)
Definition os_path_getsize (path : string) : M Z :=
  let! disk := read_fs in
  match disk !! path with
  | Some data => ret (Z.of_nat (length data))
  | None =>
      raise {| message := "[Errno 2] No such file or directory: '" ++ path ++ "'" |}
  end.

(** [os.path.exists(path)] *)
Definition os_path_exists (path : string) : M bool :=
  let! disk := read_fs in
  ret (bool_decide (is_Some (disk !! path))).

(** [os.remove(path)] *)
Definition os_remove (path : string) : M unit :=
  run! emit (EvRemove path) in
  match remove_outcome env with
  | None => delete_file path
  | Some e => raise e
  end.

End Calls.

(** ** [utils/app.py] *)

Definition UPLOAD_FOLDER : string := "static/uploads".
Definition RESULT_FOLDER : string := "static/results".

(** Module level [try: model = YOLO('models/best.pt') except Exception:
    model = None], given what the constructor did. *)
Definition load_model (loaded : Exception + YOLO) : option YOLO :=
  match loaded with
  | inr m => Some m
  | inl _ => None
  end.

(** [jsonify(d)] and [jsonify(d), code] *)
Definition jsonify (d : list (string * JValue)) : Response :=
  {| body := d; status_code := 200 |}.

Definition with_status (r : Response) (code : nat) : Response :=
  {| body := body r; status_code := code |}.

Definition error_body (msg : string) : list (string * JValue) :=
  [("error", JStr msg); ("status", JStr "error")].

Definition allowed_extensions : list string :=
  ["png"; "jpg"; "jpeg"; "gif"; "bmp"; "tiff"; "webp"].

(** [file.filename.rsplit('.', 1)[-1].lower() if '.' in file.filename else ''] *)
Definition file_extension (name : string) : string :=
  if PyStr.contains_dot name
  then PyStr.lower (PyStr.item_last (PyStr.rsplit_dot_1 name))
  else "".

(** The names of lines 79-85 and 113-114; none of these lines can raise. *)
Record Names := {
  unique_id : string;
  timestamp : string;
  base_name : string;
  extension : string;
  unique_filename : string;
  uploaded_filepath : string;
  result_filename : string;
  result_path : string
}.

Definition allocate (env : Env) (file : FileStorage) : Names :=
  let unique_id := PyStr.take_prefix 8 (PyLib.uuid_str (uuid4_int env)) in
  let timestamp := PyStr.str_of_int (time_time env) in
  let base_name :=
    Werkzeug.secure_filename (PyStr.item_0 (PyStr.rsplit_dot_1 (filename file))) in
  let extension := PyStr.lower (PyStr.item_last (PyStr.rsplit_dot_1 (filename file))) in
  let unique_filename :=
    base_name ++ "_" ++ timestamp ++ "_" ++ unique_id ++ "." ++ extension in
  let result_filename :=
    "result_" ++ base_name ++ "_" ++ timestamp ++ "_" ++ unique_id ++ "." ++ extension in
  {| unique_id := unique_id;
     timestamp := timestamp;
     base_name := base_name;
     extension := extension;
     unique_filename := unique_filename;
     uploaded_filepath := PyLib.os_path_join UPLOAD_FOLDER unique_filename;
     result_filename := result_filename;
     result_path := PyLib.os_path_join RESULT_FOLDER result_filename |}.

(** [class_names.get(class_id, f"Class_{class_id}")] *)
Definition class_name_of (class_names : gmap Z string) (class_id : Z) : string :=
  default ("Class_" ++ PyStr.str_of_int class_id) (class_names !! class_id).

(** One turn of the loop of lines 107-110. *)
Definition count_box (class_names : gmap Z string)
    (detection_stats : gmap string nat) (box : Box) : gmap string nat :=
  let class_name := class_name_of class_names (cls_0 box) in
  <[class_name := default 0 (detection_stats !! class_name) + 1]> detection_stats.

(** Lines 104-110. *)
Definition count_detections (class_names : gmap Z string)
    (detections : option (list Box)) : gmap string nat :=
  match detections with
  | Some bs =>
      if Nat.ltb 0 (length bs)
      then List.fold_left (count_box class_names) bs ∅
      else ∅
  | None => ∅
  end.

(** [sum(d.values())] *)
Definition sum_values (d : gmap string nat) : nat :=
  map_fold (fun _ v acc => acc + v) 0 d.

(** [sum(detection_stats.values()) if detection_stats else 0] *)
Definition total_detections (detection_stats : gmap string nat) : nat :=
  if bool_decide (detection_stats = ∅) then 0 else sum_values detection_stats.

(** The keyword arguments of lines 91-97 (0.25 and 0.7 kept as fractions). *)
Definition inference_args (path : string) : PredictArgs :=
  {| source := path;
     save := false;
     conf := QArith_base.Qmake 25 100;
     iou := QArith_base.Qmake 7 10;
     verbose := false |}.

(** The body of the [try] block, from [file.save] on (lines 88-129). *)
Definition predict_try (env : Env) (model : YOLO) (file : FileStorage)
    (n : Names) : M Response :=
  run! file_save env file (uploaded_filepath n) in
  let! results := model_predict model (inference_args (uploaded_filepath n)) in
  let! r0 := results_0 results in
  let! result_img_np := results_plot r0 in
  let detections := boxes r0 in
  let detection_stats := count_detections (names model) detections in
  run! image_save env result_img_np (result_path n) in
  let! file_size := os_path_getsize (uploaded_filepath n) in
  ret (jsonify
         [("status", JStr "success");
          ("uploaded_image_url",
             JStr (PyLib.url_for_static ("uploads/" ++ unique_filename n)));
          ("result_image_url",
             JStr (PyLib.url_for_static ("results/" ++ result_filename n)));
          ("detection_stats", JCounts detection_stats);
          ("total_detections", JInt (Z.of_nat (total_detections detection_stats)));
          ("filename", JStr (unique_filename n));
          ("timestamp", JStr (timestamp n));
          ("file_size", JInt file_size)]).

(** The [except Exception as e] clause (lines 131-143).  The local
    [uploaded_filepath] is bound before the first call that can raise, so
    ['uploaded_filepath' in locals()] holds whenever the clause runs.  The
    inner bare [except: pass] swallows what [os.remove] raises.  The
    [print] to the server's standard output is left out. *)
Definition predict_except (env : Env) (n : Names) (e : Exception) : M Response :=
  let! on_disk := os_path_exists (uploaded_filepath n) in
  run! (if on_disk
        then try_except (os_remove env (uploaded_filepath n)) (fun _ => ret tt)
        else ret tt) in
  ret (with_status
         (jsonify (error_body
            ("An error occurred during object detection: " ++ message e)))
         500).

(** [predict()], the handler of [POST /predict]; [model] is the module
    level handle.  An [inl] result would be an exception escaping the
    handler. *)
Definition predict (model : option YOLO) (env : Env) (request : Request)
    : M Response :=
  match model with
  | None =>
      ret (with_status
             (jsonify (error_body
                "Deep learning model not loaded. Please check server logs for details."))
             500)
  | Some model =>
      match files request !! "image" with
      | None =>
          ret (with_status
                 (jsonify (error_body "No image file part in the request.")) 400)
      | Some file =>
          if String.eqb (filename file) ""
          then ret (with_status (jsonify (error_body "No selected file.")) 400)
          else
            if negb (PyStr.mem (file_extension (filename file)) allowed_extensions)
            then
              ret (with_status
                     (jsonify (error_body
                        ("Invalid file type. Supported formats: "
                           ++ PyStr.join ", " (set_order env))))
                     400)
            else
              if FileStorage_bool file
              then
                let n := allocate env file in
                try_except (predict_try env model file n) (predict_except env n)
              else
                ret (with_status
                       (jsonify (error_body
                          "Something went wrong during file upload or processing."))
                       500)
      end
  end.

(** [x is not None] *)
Definition is_not_None {A} (x : option A) : bool :=
  match x with
  | Some _ => true
  | None => false
  end.

(** [health_check()], the handler of [GET /health]. *)
Definition health_check (model : option YOLO) : Response :=
  jsonify
    [("status", JStr (if is_not_None model then "healthy" else "degraded"));
     ("model_loaded", JBool (is_not_None model));
     ("service", JStr "SkyVision Object Detection API")].

(** ** The process: one handle, a sequence of calls *)

Inductive Call :=
| PostPredict (env : Env) (request : Request)
| GetHealth.

Definition dispatch (model : option YOLO) (c : Call) : M Response :=
  match c with
  | PostPredict env request => predict model env request
  | GetHealth => ret (health_check model)
  end.

(** The replies to [calls], served one after the other from world [w]. *)
Fixpoint serve (model : option YOLO) (calls : list Call) (w : World)
    : list (Exception + Response) * World :=
  match calls with
  | [] => ([], w)
  | c :: rest =>
      let (r, w1) := dispatch model c w in
      let (rs, w2) := serve model rest w1 in
      (r :: rs, w2)
  end.

(** ** Vocabulary of the statements *)

(** Every character of [s] satisfies [p]. *)
Fixpoint all_chars (p : ascii -> bool) (s : string) : bool :=
  match s with
  | EmptyString => true
  | String c r => p c && all_chars p r
  end.

(** Some character of [s] is an upper case letter. *)
Fixpoint has_upper (s : string) : bool :=
  match s with
  | EmptyString => false
  | String c r => PyStr.is_upper c || has_upper r
  end.

(** The extension of a file name in the words of the specification: what
    follows the last dot, case folded; empty when there is no dot. *)
Definition extension_after_last_dot (name : string) : string :=
  match PyStr.cut_last_dot name with
  | Some (_, e) => PyStr.lower e
  | None => ""
  end.

(** The request is one the validator turns down: no [image] part, an empty
    file name, or an extension outside the allow-list. *)
Definition turned_down (request : Request) : Prop :=
  match files request !! "image" with
  | None => True
  | Some file =>
      filename file = "" \/
      ~ In (extension_after_last_dot (filename file)) allowed_extensions
  end.

(** [d[k]] on a reply body. *)
Fixpoint field (k : string) (d : list (string * JValue)) : option JValue :=
  match d with
  | [] => None
  | (k', v) :: r => if String.eqb k k' then Some v else field k r
  end.

(** The [error] message of a reply. *)
Definition error_of (resp : Response) : string :=
  match field "error" (body resp) with
  | Some (JStr msg) => msg
  | _ => ""
  end.

(** [e] occurs in [s]. *)
Definition occurs_in (e s : string) : Prop :=
  exists pre post, s = pre ++ e ++ post.

(** The detections of [bs] whose resolved class name is [name]. *)
Definition detections_named (class_names : gmap Z string) (name : string)
    (bs : list Box) : nat :=
  length (List.filter
            (fun b => String.eqb (class_name_of class_names (cls_0 b)) name) bs).

(** The log of a request that runs to the end of the [try] block. *)
Definition full_log (n : Names) : list Event :=
  [EvSave (uploaded_filepath n); EvPredict (uploaded_filepath n); EvPlot;
   EvImageSave (result_path n)].

(** The disk once [file.save] has returned. *)
Definition saved (file : FileStorage) (n : Names)
    (disk : gmap string (list Byte.byte)) : gmap string (list Byte.byte) :=
  <[uploaded_filepath n := stream file]> disk.

(** An exception [e] is raised in the [try] block started in world [w]:
    by [file.save], by [model.predict] or the indexing of its result, by
    [plot()], or by the saving of the rendered image. *)
Inductive raised_in (env : Env) (model : YOLO) (file : FileStorage)
    (n : Names) (w : World) : Exception -> Prop :=
| raised_save e left :
    save_outcome env = Some (e, left) ->
    raised_in env model file n w e
| raised_inference e :
    save_outcome env = None ->
    run model (saved file n (fs w)) (inference_args (uploaded_filepath n)) = inl e ->
    raised_in env model file n w e
| raised_index :
    save_outcome env = None ->
    run model (saved file n (fs w)) (inference_args (uploaded_filepath n)) = inr [] ->
    raised_in env model file n w {| message := "list index out of range" |}
| raised_render e r0 rest :
    save_outcome env = None ->
    run model (saved file n (fs w)) (inference_args (uploaded_filepath n))
      = inr (r0 :: rest) ->
    plot r0 = inl e ->
    raised_in env model file n w e
| raised_persist e left r0 rest img :
    save_outcome env = None ->
    run model (saved file n (fs w)) (inference_args (uploaded_filepath n))
      = inr (r0 :: rest) ->
    plot r0 = inr img ->
    image_save_outcome env img (result_path n) = inl (e, left) ->
    raised_in env model file n w e.

(** The upload [file] of [request] passes the checks of lines 51-74. *)
Definition accepted (request : Request) (file : FileStorage) : Prop :=
  files request !! "image" = Some file /\
  PyStr.mem (file_extension (filename file)) allowed_extensions = true.

(** The replies of the exits of [predict] that are not the success reply. *)
Definition reply_no_model : Response :=
  with_status
    (jsonify (error_body
       "Deep learning model not loaded. Please check server logs for details."))
    500.

Definition reply_no_part : Response :=
  with_status (jsonify (error_body "No image file part in the request.")) 400.

Definition reply_no_file : Response :=
  with_status (jsonify (error_body "No selected file.")) 400.

Definition reply_bad_type (env : Env) : Response :=
  with_status
    (jsonify (error_body
       ("Invalid file type. Supported formats: "
          ++ PyStr.join ", " (set_order env))))
    400.

Definition reply_failed (e : Exception) : Response :=
  with_status
    (jsonify (error_body
       ("An error occurred during object detection: " ++ message e)))
    500.

Definition reply_fallback : Response :=
  with_status
    (jsonify (error_body
       "Something went wrong during file upload or processing."))
    500.

(** The five ways through [predict] when the model is loaded. *)
Inductive exit_of (model : YOLO) (env : Env) (request : Request) (w : World)
    : Response -> World -> Prop :=
| exit_no_part :
    files request !! "image" = None ->
    exit_of model env request w reply_no_part w
| exit_no_file file :
    files request !! "image" = Some file ->
    filename file = "" ->
    exit_of model env request w reply_no_file w
| exit_bad_type file :
    files request !! "image" = Some file ->
    filename file <> "" ->
    PyStr.mem (file_extension (filename file)) allowed_extensions = false ->
    exit_of model env request w (reply_bad_type env) w
| exit_success file resp w' :
    accepted request file ->
    predict_try env model file (allocate env file) w = (inr resp, w') ->
    exit_of model env request w resp w'
| exit_failed file e w1 w' :
    accepted request file ->
    predict_try env model file (allocate env file) w = (inl e, w1) ->
    predict_except env (allocate env file) e w1 = (inr (reply_failed e), w') ->
    exit_of model env request w (reply_failed e) w'.

(** ** The wording of the specification, for comparison *)





(** The failures of a [POST /predict], with the status and the message
    each one is to be answered with: the model is not available; the
    request has no [image] part, no file name, or a file type that is not
    allowed; an exception is raised while the accepted upload is saved,
    run through the model, rendered or persisted. *)
Inductive failure (model : option YOLO) (env : Env) (request : Request)
    (w : World) : nat -> string -> Prop :=
| failure_unavailable :
    model = None ->
    failure model env request w 500
      "Deep learning model not loaded. Please check server logs for details."
| failure_no_part m :
    model = Some m ->
    files request !! "image" = None ->
    failure model env request w 400 "No image file part in the request."
| failure_no_file m file :
    model = Some m ->
    files request !! "image" = Some file ->
    filename file = "" ->
    failure model env request w 400 "No selected file."
| failure_bad_type m file :
    model = Some m ->
    files request !! "image" = Some file ->
    filename file <> "" ->
    ~ In (extension_after_last_dot (filename file)) allowed_extensions ->
    failure model env request w 400
      ("Invalid file type. Supported formats: " ++ PyStr.join ", " (set_order env))
| failure_processing m file e :
    model = Some m ->
    accepted request file ->
    raised_in env m file (allocate env file) w e ->
    failure model env request w 500
      ("An error occurred during object detection: " ++ message e).

(** ** Vocabulary of the further properties *)

(** A character of a decimal rendering: a digit or the sign. *)
Definition is_decimal_char (c : ascii) : bool :=
  Werkzeug.between 48 57 c || Ascii.eqb c "-".

(** A lower case hexadecimal digit. *)
Definition is_hex_char (c : ascii) : bool :=
  Werkzeug.between 48 57 c || Werkzeug.between 97 102 c.

(** Bits 96 to 127 of a UUID. *)
Definition top32 (n : N) : N := ((n / 2 ^ 96) mod 2 ^ 32)%N.

(** The calls to the model in a log. *)
Definition model_calls (l : list Event) : nat :=
  length (List.filter (fun ev => match ev with EvPredict _ => true | _ => false end) l).

(** The writes of a result image in a log. *)
Definition result_writes (l : list Event) : nat :=
  length (List.filter (fun ev => match ev with EvImageSave _ => true | _ => false end) l).

(** The class names the boxes of a detection set resolve to. *)
Definition resolved_names (class_names : gmap Z string) (bs : list Box)
    : list string :=
  List.map (fun b => class_name_of class_names (cls_0 b)) bs.

(** ** Sample data *)

Module Sample.

Definition model : YOLO :=
  {| names := {[ 0%Z := "plane"; 1%Z := "bird" ]};
     run := fun disk args =>
       match disk !! source args with
       | Some _ =>
           inr [ {| plot := inr [Byte.x01; Byte.x02];
                    boxes := Some [ {| cls_0 := 0 |}; {| cls_0 := 7 |};
                                    {| cls_0 := 0 |} ] |} ]
       | None => inl {| message := "no such image" |}
       end |}.

(** A request time at which every call succeeds. *)
Definition env : Env :=
  {| uuid4_int := 0x3f2a9c1de5b74a60b8d20123456789ab;
     time_time := 1700000000;
     set_order := ["gif"; "png"; "jpg"; "jpeg"; "webp"; "bmp"; "tiff"];
     save_outcome := None;
     image_save_outcome := fun img _ => inr img;
     remove_outcome := None |}.

(** A request time at which the disk fills up while the upload is saved,
    and the partial file cannot be removed. *)
Definition env_disk_full : Env :=
  {| uuid4_int := 0x3f2a9c1de5b74a60b8d20123456789ab;
     time_time := 1700000000;
     set_order := ["gif"; "png"; "jpg"; "jpeg"; "webp"; "bmp"; "tiff"];
     save_outcome :=
       Some ({| message := "[Errno 28] No space left on device" |},
             Some [Byte.x00]);
     image_save_outcome := fun img _ => inr img;
     remove_outcome := Some {| message := "[Errno 13] Permission denied" |} |}.

(** A request time at which the rendered image cannot be encoded. *)
Definition env_encode_fails : Env :=
  {| uuid4_int := 0x3f2a9c1de5b74a60b8d20123456789ab;
     time_time := 1700000000;
     set_order := ["gif"; "png"; "jpg"; "jpeg"; "webp"; "bmp"; "tiff"];
     save_outcome := None;
     image_save_outcome :=
       fun _ _ => inl ({| message := "cannot write mode F as JPEG" |}, None);
     remove_outcome := None |}.

Definition upload (name : string) : FileStorage :=
  {| filename := name; stream := [Byte.x00; Byte.x01; Byte.x02] |}.

Definition post (name : string) : Request :=
  {| files := {[ "image" := upload name ]} |}.

Definition post_nothing : Request := {| files := ∅ |}.

Definition world : World := {| fs := ∅; log := [] |}.

(** The reply of a run, when it is one. *)
Definition reply_of (r : (Exception + Response) * World) : Response :=
  match fst r with
  | inr resp => resp
  | inl _ => {| body := []; status_code := 0 |}
  end.

End Sample.

(** More sample data. *)
Module Sample2.

(** The request time of [Sample.env], one second later and with another
    UUID. *)
Definition env_later : Env :=
  {| uuid4_int := 0x9d41c07be5b74a60b8d20123456789ab;
     time_time := 1700000001;
     set_order := ["gif"; "png"; "jpg"; "jpeg"; "webp"; "bmp"; "tiff"];
     save_outcome := None;
     image_save_outcome := fun img _ => inr img;
     remove_outcome := None |}.

(** A request time at which the upload cannot be opened for writing. *)
Definition env_save_denied : Env :=
  {| uuid4_int := 0x3f2a9c1de5b74a60b8d20123456789ab;
     time_time := 1700000000;
     set_order := ["gif"; "png"; "jpg"; "jpeg"; "webp"; "bmp"; "tiff"];
     save_outcome := Some ({| message := "[Errno 13] Permission denied" |}, None);
     image_save_outcome := fun img _ => inr img;
     remove_outcome := None |}.

(** A disk that holds one earlier file. *)
Definition world_with (path : string) : World :=
  {| fs := {[ path := [Byte.x2a] ]}; log := [] |}.

End Sample2.

(** * Properties *)

(** ** The library functions on examples *)

Example lower_ex : PyStr.lower "Cat.JPG" = "cat.jpg".
Proof. reflexivity. Qed.

Example rsplit_ex :
  PyStr.rsplit_dot_1 "a.b.JPG" = ["a.b"; "JPG"] /\
  PyStr.rsplit_dot_1 "nodot" = ["nodot"] /\
  PyStr.rsplit_dot_1 ".png" = [""; "png"] /\
  PyStr.rsplit_dot_1 "x." = ["x"; ""].
Proof. repeat split. Qed.

Example str_of_int_ex :
  PyStr.str_of_int 0 = "0" /\ PyStr.str_of_int 1700000000 = "1700000000" /\
  PyStr.str_of_int (-5) = "-5".
Proof. repeat split. Qed.

Example secure_filename_ex :
  Werkzeug.secure_filename "My cool movie" = "My_cool_movie" /\
  Werkzeug.secure_filename "../../../etc/passwd" = "etc_passwd" /\
  Werkzeug.secure_filename "  a  b/c?d  " = "a_b_cd" /\
  Werkzeug.secure_filename "__.x._" = "x" /\
  Werkzeug.secure_filename "..." = "".
Proof. repeat split. Qed.

Example uuid_str_ex :
  PyLib.uuid_str 0x3f2a9c1de5b74a60b8d20123456789ab
  = "3f2a9c1d-e5b7-4a60-b8d2-0123456789ab".
Proof. reflexivity. Qed.

Example os_path_join_ex :
  PyLib.os_path_join "static/uploads" "cat_1_ab.jpg" = "static/uploads/cat_1_ab.jpg" /\
  PyLib.os_path_join "static/uploads" "/etc/x" = "/etc/x".
Proof. split; reflexivity. Qed.


(** ** Strings *)

Lemma append_nil (b : string) : "" ++ b = b.
Proof. reflexivity. Qed.

Lemma append_cons (x : ascii) (a b : string) :
  String x a ++ b = String x (a ++ b).
Proof. reflexivity. Qed.

Lemma append_empty_r (a : string) : a ++ "" = a.
Proof.
  induction a as [|x a IH]; [reflexivity |].
  now rewrite append_cons, IH.
Qed.

Lemma append_assoc (a b c : string) : (a ++ b) ++ c = a ++ (b ++ c).
Proof.
  induction a as [|x a IH]; [reflexivity |].
  now rewrite !append_cons, IH.
Qed.

Lemma all_chars_app p (a b : string) :
  all_chars p (a ++ b) = all_chars p a && all_chars p b.
Proof.
  induction a as [|x a IH]; [reflexivity |].
  rewrite append_cons. simpl. now rewrite IH, andb_assoc.
Qed.

Lemma all_chars_weaken (p q : ascii -> bool) (s : string) :
  (forall c, p c = true -> q c = true) ->
  all_chars p s = true -> all_chars q s = true.
Proof.
  intros Hpq. induction s as [|x s IH]; simpl; [reflexivity |].
  intros [Hx Hs]%andb_prop. rewrite (Hpq _ Hx). simpl. auto.
Qed.

Lemma mem_In (x : string) (l : list string) : PyStr.mem x l = true <-> In x l.
Proof.
  unfold PyStr.mem. rewrite existsb_exists. split.
  - intros (y & Hy & Heq). apply String.eqb_eq in Heq. now subst.
  - intros H. exists x. split; [exact H | apply String.eqb_refl].
Qed.

(** *** The last dot *)

Lemma cut_last_dot_contains (s : string) :
  PyStr.contains_dot s = true <-> is_Some (PyStr.cut_last_dot s).
Proof.
  induction s as [|c s IH]; simpl.
  - split; [discriminate | intros [? ?]; discriminate].
  - destruct (PyStr.cut_last_dot s) as [[b a]|].
    + split; [eauto | intros _].
      destruct (Ascii.eqb c "."); [reflexivity | apply IH; eauto].
    + destruct (Ascii.eqb c ".").
      * split; eauto.
      * rewrite IH. reflexivity.
Qed.

Lemma cut_last_dot_spec (s b a : string) :
  PyStr.cut_last_dot s = Some (b, a) ->
  s = b ++ "." ++ a /\ PyStr.contains_dot a = false.
Proof.
  revert b. induction s as [|c s IH]; simpl; intros b H; [discriminate |].
  destruct (PyStr.cut_last_dot s) as [[b' a']|] eqn:Hs.
  - injection H as <- <-. destruct (IH b' eq_refl) as [-> Ha].
    split; [reflexivity | exact Ha].
  - destruct (Ascii.eqb c ".") eqn:Hc; [| discriminate].
    injection H as <- <-. apply Ascii.eqb_eq in Hc. subst c.
    split; [reflexivity |].
    destruct (PyStr.contains_dot s) eqn:Hd; [| reflexivity].
    apply cut_last_dot_contains in Hd. rewrite Hs in Hd.
    destruct Hd as [? ?]; discriminate.
Qed.

Lemma cut_last_dot_app (b a : string) :
  PyStr.contains_dot a = false ->
  PyStr.cut_last_dot (b ++ "." ++ a) = Some (b, a).
Proof.
  intros Ha.
  assert (Hn : PyStr.cut_last_dot a = None).
  { destruct (PyStr.cut_last_dot a) eqn:E; [| reflexivity].
    assert (Hs : is_Some (PyStr.cut_last_dot a)) by (rewrite E; eauto).
    apply cut_last_dot_contains in Hs. congruence. }
  induction b as [|c b IH].
  - rewrite append_nil, append_cons, append_nil. simpl. now rewrite Hn.
  - rewrite append_cons. simpl. now rewrite IH.
Qed.

Lemma lower_char_dot (c : ascii) :
  Ascii.eqb (PyStr.lower_char c) "." = Ascii.eqb c ".".
Proof.
  unfold PyStr.lower_char, PyStr.is_upper.
  destruct (Nat.leb 65 (nat_of_ascii c) && Nat.leb (nat_of_ascii c) 90) eqn:E;
    [| reflexivity].
  apply andb_prop in E as [E1 E2].
  apply Nat.leb_le in E1. apply Nat.leb_le in E2.
  assert (Hlt : nat_of_ascii c + 32 < 256) by lia.
  destruct (Ascii.eqb c ".") eqn:Hc.
  - apply Ascii.eqb_eq in Hc. subst c.
    change (nat_of_ascii ".") with 46 in E1. lia.
  - apply Ascii.eqb_neq. intros Heq.
    apply (f_equal nat_of_ascii) in Heq.
    rewrite nat_ascii_embedding in Heq by exact Hlt.
    change (nat_of_ascii ".") with 46 in Heq. lia.
Qed.

Lemma lower_contains_dot (s : string) :
  PyStr.contains_dot (PyStr.lower s) = PyStr.contains_dot s.
Proof.
  induction s as [|c s IH]; simpl; [reflexivity |].
  now rewrite lower_char_dot, IH.
Qed.

(** *** What [secure_filename] returns *)

Lemma filter_chars_all p (s : string) :
  all_chars p (Werkzeug.filter_chars p s) = true.
Proof.
  induction s as [|c s IH]; simpl; [reflexivity |].
  destruct (p c) eqn:Hc; simpl; [now rewrite Hc | exact IH].
Qed.

Lemma lstrip_all p q (s : string) :
  all_chars p s = true -> all_chars p (Werkzeug.lstrip q s) = true.
Proof.
  induction s as [|c s IH]; simpl; [reflexivity |].
  intros H. destruct (q c); simpl; [| exact H].
  apply andb_prop in H as [_ H]. auto.
Qed.

Lemma rstrip_all p q (s : string) :
  all_chars p s = true -> all_chars p (Werkzeug.rstrip q s) = true.
Proof.
  induction s as [|c s IH]; simpl; [reflexivity |].
  intros [Hc Hs]%andb_prop. specialize (IH Hs).
  destruct (Werkzeug.rstrip q s) as [|c' r'].
  - destruct (q c); simpl; [reflexivity | now rewrite Hc].
  - simpl in *. now rewrite Hc, IH.
Qed.

Lemma secure_filename_safe (s : string) :
  all_chars Werkzeug.is_safe (Werkzeug.secure_filename s) = true.
Proof.
  unfold Werkzeug.secure_filename, Werkzeug.strip.
  apply rstrip_all, lstrip_all, filter_chars_all.
Qed.

Lemma safe_not_sep (c : ascii) :
  Werkzeug.is_safe c = true -> Ascii.eqb c "/" = false.
Proof.
  intros H. destruct (Ascii.eqb c "/") eqn:E; [| reflexivity].
  apply Ascii.eqb_eq in E. subst c. vm_compute in H. discriminate.
Qed.

(** *** Decimal and hexadecimal digits *)

Lemma string_of_uint_safe (d : Decimal.uint) :
  all_chars Werkzeug.is_safe (NilEmpty.string_of_uint d) = true.
Proof. induction d; simpl; auto. Qed.

Lemma string_of_uint_nilzero_safe (d : Decimal.uint) :
  all_chars Werkzeug.is_safe (NilZero.string_of_uint d) = true.
Proof.
  unfold NilZero.string_of_uint.
  destruct d; try reflexivity; apply string_of_uint_safe.
Qed.

Lemma str_of_int_safe (z : Z) :
  all_chars Werkzeug.is_safe (PyStr.str_of_int z) = true.
Proof.
  unfold PyStr.str_of_int, NilZero.string_of_int.
  destruct (Z.to_int z) as [d|d].
  - apply string_of_uint_nilzero_safe.
  - change (Werkzeug.is_safe "-"
            && all_chars Werkzeug.is_safe (NilZero.string_of_uint d) = true).
    now rewrite string_of_uint_nilzero_safe.
Qed.

Lemma hex_digit_safe (d : N) : Werkzeug.is_safe (PyLib.hex_digit d) = true.
Proof.
  destruct d as [|p]; [reflexivity |].
  do 4 (try destruct p as [p|p|]); reflexivity.
Qed.

(** The token is the first eight hexadecimal digits of the UUID. *)
Lemma unique_id_digits (n : N) :
  PyStr.take_prefix 8 (PyLib.uuid_str n)
  = string_of_list_ascii (List.map (PyLib.nibble 32 n) (List.seq 0 8)).
Proof. cbv - [PyLib.nibble]. reflexivity. Qed.

Lemma unique_id_length (n : N) :
  String.length (PyStr.take_prefix 8 (PyLib.uuid_str n)) = 8.
Proof. rewrite unique_id_digits. reflexivity. Qed.

Lemma unique_id_safe (n : N) :
  all_chars Werkzeug.is_safe (PyStr.take_prefix 8 (PyLib.uuid_str n)) = true.
Proof.
  rewrite unique_id_digits.
  cbv [List.seq List.map string_of_list_ascii all_chars PyLib.nibble].
  now rewrite !hex_digit_safe.
Qed.

Lemma allowed_extension_safe (e : string) :
  PyStr.mem e allowed_extensions = true -> all_chars Werkzeug.is_safe e = true.
Proof.
  intros H. apply mem_In in H. unfold allowed_extensions in H. simpl in H.
  repeat (destruct H as [<- | H]; [reflexivity |]). destruct H.
Qed.

(** *** Paths *)

Lemma starts_with_sep_safe (a b : string) :
  all_chars Werkzeug.is_safe a = true ->
  PyLib.starts_with_sep (a ++ "_" ++ b) = false.
Proof.
  destruct a as [|c a]; [reflexivity |].
  rewrite append_cons. simpl. intros [Hc _]%andb_prop.
  now apply safe_not_sep.
Qed.

Lemma join_upload_folder (a b : string) :
  all_chars Werkzeug.is_safe a = true ->
  PyLib.os_path_join UPLOAD_FOLDER (a ++ "_" ++ b)
  = "static/uploads/" ++ a ++ "_" ++ b.
Proof.
  intros Ha. unfold PyLib.os_path_join.
  now rewrite (starts_with_sep_safe a b Ha).
Qed.

Lemma join_result_folder (s : string) :
  PyLib.os_path_join RESULT_FOLDER ("result_" ++ s)
  = "static/results/result_" ++ s.
Proof. reflexivity. Qed.

Lemma upload_result_paths_differ (a b : string) :
  "static/uploads/" ++ a <> "static/results/" ++ b.
Proof. intros H. cbv [String.append] in H. discriminate. Qed.

(** *** The names allocated for an upload *)

Lemma allocate_unique_filename env file :
  unique_filename (allocate env file)
  = base_name (allocate env file) ++ "_" ++ timestamp (allocate env file) ++ "_"
      ++ unique_id (allocate env file) ++ "." ++ extension (allocate env file).
Proof. reflexivity. Qed.

Lemma allocate_result_filename env file :
  result_filename (allocate env file)
  = "result_" ++ unique_filename (allocate env file).
Proof. reflexivity. Qed.

Lemma allocate_uploaded_filepath env file :
  uploaded_filepath (allocate env file)
  = "static/uploads/" ++ unique_filename (allocate env file).
Proof.
  unfold allocate; cbn [uploaded_filepath unique_filename].
  apply join_upload_folder, secure_filename_safe.
Qed.

Lemma allocate_result_path env file :
  result_path (allocate env file)
  = "static/results/" ++ result_filename (allocate env file).
Proof. reflexivity. Qed.

Lemma allocate_paths_differ env file :
  uploaded_filepath (allocate env file) <> result_path (allocate env file).
Proof.
  rewrite allocate_uploaded_filepath, allocate_result_path.
  apply upload_result_paths_differ.
Qed.

(** ** The [try] block *)

Ltac step_calls :=
  unfold predict_try, file_save, model_predict, results_0, results_plot,
    image_save, os_path_getsize, fail_write, write_file, read_fs, emit, bind,
    raise, ret, saved in *;
  cbn [fs log fst snd] in *.

(** Every exception of the block is one of [raised_in], and conversely. *)
Lemma predict_try_raises env model file n w e :
  uploaded_filepath n <> result_path n ->
  (exists w1, predict_try env model file n w = (inl e, w1))
  <-> raised_in env model file n w e.
Proof.
  intros Hne. split.
  - intros [w1 H]. step_calls.
    destruct (save_outcome env) as [[e0 left]|] eqn:Hsave.
    + destruct left; cbn in H; injection H as <- _;
        eapply raised_save; eassumption.
    + cbn [fs log] in H.
      destruct (run model _ _) as [e1|[|r0 rest]] eqn:Hrun; cbn in H.
      * injection H as <- _. now apply raised_inference.
      * injection H as <- _. now apply raised_index.
      * destruct (plot r0) as [e2|img] eqn:Hplot; cbn in H.
        { injection H as <- _. now apply (raised_render _ _ _ _ _ _ r0 rest). }
        destruct (image_save_outcome env img (result_path n))
          as [[e3 left]|enc] eqn:Himg; cbn in H.
        { destruct left; cbn in H; injection H as <- _;
            eapply raised_persist; eassumption. }
        rewrite lookup_insert_ne, lookup_insert_eq in H by congruence.
        discriminate.
  - intros H. destruct H as [e left Hs|e Hs Hr|Hs Hr|e r0 rest Hs Hr Hp
                            |e left r0 rest img Hs Hr Hp Hi]; step_calls;
      rewrite Hs; cbn [fst snd fs log].
    + destruct left; eauto.
    + rewrite Hr. eauto.
    + rewrite Hr. eauto.
    + rewrite Hr. cbn. rewrite Hp. eauto.
    + rewrite Hr. cbn. rewrite Hp. cbn. rewrite Hi. cbn.
      destruct left; eauto.
Qed.

(** What a run to the end of the block did and returned. *)
Lemma predict_try_returns env model file n w resp w' :
  uploaded_filepath n <> result_path n ->
  predict_try env model file n w = (inr resp, w') ->
  exists r0 rest img enc,
    save_outcome env = None /\
    run model (saved file n (fs w)) (inference_args (uploaded_filepath n))
      = inr (r0 :: rest) /\
    plot r0 = inr img /\
    image_save_outcome env img (result_path n) = inr enc /\
    fs w' = <[result_path n := enc]> (saved file n (fs w)) /\
    log w' = (log w ++ full_log n)%list /\
    resp =
      jsonify
        [("status", JStr "success");
         ("uploaded_image_url",
            JStr (PyLib.url_for_static ("uploads/" ++ unique_filename n)));
         ("result_image_url",
            JStr (PyLib.url_for_static ("results/" ++ result_filename n)));
         ("detection_stats", JCounts (count_detections (names model) (boxes r0)));
         ("total_detections",
            JInt (Z.of_nat (total_detections
                              (count_detections (names model) (boxes r0)))));
         ("filename", JStr (unique_filename n));
         ("timestamp", JStr (timestamp n));
         ("file_size", JInt (Z.of_nat (length (stream file))))].
Proof.
  intros Hne H. step_calls.
  destruct (save_outcome env) as [[e0 left]|] eqn:Hsave.
  { destruct left; cbn in H; discriminate. }
  cbn [fs log] in H.
  destruct (run model _ _) as [e1|[|r0 rest]] eqn:Hrun; cbn in H;
    try discriminate.
  destruct (plot r0) as [e2|img] eqn:Hplot; cbn in H; [discriminate |].
  destruct (image_save_outcome env img (result_path n))
    as [[e3 left]|enc] eqn:Himg; cbn in H.
  { destruct left; cbn in H; discriminate. }
  rewrite lookup_insert_ne, lookup_insert_eq in H by congruence.
  injection H as <- <-. exists r0, rest, img, enc. cbn [fs log].
  repeat split; try assumption; try reflexivity.
  unfold full_log. now rewrite <- !app_assoc.
Qed.

(** The calls of the block are made in order, each at most once. *)
Lemma predict_try_log env model file n w r w1 :
  predict_try env model file n w = (r, w1) ->
  exists k, log w1 = (log w ++ List.firstn k (full_log n))%list /\ 1 <= k.
Proof.
  intros H. step_calls. unfold full_log.
  destruct (save_outcome env) as [[e0 left]|] eqn:Hsave.
  { exists 1. destruct left; cbn in H; injection H as _ <-; cbn; auto. }
  cbn [fs log] in H.
  destruct (run model _ _) as [e1|[|r0 rest]] eqn:Hrun; cbn in H.
  1,2: exists 2; injection H as _ <-; cbn; rewrite <- app_assoc; auto.
  destruct (plot r0) as [e2|img] eqn:Hplot; cbn in H.
  { exists 3. injection H as _ <-. cbn. rewrite <- !app_assoc. auto. }
  destruct (image_save_outcome env img (result_path n))
    as [[e3 left]|enc] eqn:Himg; cbn in H.
  { exists 4. destruct left; cbn in H; injection H as _ <-; cbn;
      rewrite <- !app_assoc; auto. }
  exists 4.
  destruct (_ !! uploaded_filepath n); cbn in H; injection H as _ <-; cbn;
    rewrite <- !app_assoc; auto.
Qed.

(** ** The [except] clause *)

Lemma predict_except_runs env n e w1 :
  exists w',
    predict_except env n e w1 = (inr (reply_failed e), w') /\
    (fs w1 !! uploaded_filepath n = None -> w' = w1) /\
    (is_Some (fs w1 !! uploaded_filepath n) ->
       log w' = (log w1 ++ [EvRemove (uploaded_filepath n)])%list /\
       fs w' = match remove_outcome env with
               | None => delete (uploaded_filepath n) (fs w1)
               | Some _ => fs w1
               end).
Proof.
  unfold predict_except, os_path_exists, os_remove, try_except, delete_file,
    read_fs, emit, bind, raise, ret.
  destruct (fs w1 !! uploaded_filepath n) as [data|] eqn:Hdisk.
  - rewrite bool_decide_eq_true_2 by eauto.
    destruct (remove_outcome env); cbn; eexists; split; try reflexivity;
      (split; [discriminate | intros _; cbn; auto]).
  - rewrite bool_decide_eq_false_2 by (intros [? ?]; discriminate).
    cbn. eexists; split; [reflexivity |].
    split; [reflexivity | intros [? ?]; discriminate].
Qed.

(** ** The exits of [predict] *)

Lemma accepted_filename request file :
  accepted request file -> String.eqb (filename file) "" = false.
Proof.
  intros [_ Hext]. destruct (String.eqb (filename file) "") eqn:E; [| reflexivity].
  apply String.eqb_eq in E. rewrite E in Hext. vm_compute in Hext. discriminate.
Qed.

(** An accepted upload runs the [try] statement. *)
Lemma predict_accepted model env request file :
  accepted request file ->
  predict (Some model) env request
  = try_except (predict_try env model file (allocate env file))
      (predict_except env (allocate env file)).
Proof.
  intros Hacc. pose proof (accepted_filename _ _ Hacc) as Hname.
  destruct Hacc as [Hfile Hext]. unfold predict, FileStorage_bool.
  now rewrite Hfile, Hname, Hext.
Qed.

Lemma predict_exits model env request w :
  exists resp w',
    predict (Some model) env request w = (inr resp, w') /\
    exit_of model env request w resp w'.
Proof.
  destruct (files request !! "image") as [file|] eqn:Hfile.
  2: { exists reply_no_part, w. split; [| now constructor].
       unfold predict. now rewrite Hfile. }
  destruct (String.eqb (filename file) "") eqn:Hname.
  { exists reply_no_file, w. split.
    - unfold predict. now rewrite Hfile, Hname.
    - apply String.eqb_eq in Hname. eapply exit_no_file; eauto. }
  destruct (PyStr.mem (file_extension (filename file)) allowed_extensions)
    eqn:Hext.
  2: { exists (reply_bad_type env), w. split.
       - unfold predict. now rewrite Hfile, Hname, Hext.
       - apply String.eqb_neq in Hname. eapply exit_bad_type; eauto. }
  assert (Hacc : accepted request file) by (split; assumption).
  rewrite (predict_accepted model env request file Hacc). unfold try_except.
  destruct (predict_try env model file (allocate env file) w) as [[e|resp] w1]
    eqn:Htry.
  - destruct (predict_except_runs env (allocate env file) e w1) as (w' & He & _).
    exists (reply_failed e), w'. split; [exact He |].
    eapply exit_failed; eauto.
  - exists resp, w1. split; [reflexivity |]. eapply exit_success; eauto.
Qed.

(** [predict] never lets an exception escape. *)
Lemma predict_total model env request w :
  exists resp w', predict model env request w = (inr resp, w').
Proof.
  destruct model as [model|].
  - destruct (predict_exits model env request w) as (resp & w' & H & _); eauto.
  - exists reply_no_model, w. reflexivity.
Qed.

Lemma predict_exit_inv model env request w resp w' :
  predict (Some model) env request w = (inr resp, w') ->
  exit_of model env request w resp w'.
Proof.
  intros H. destruct (predict_exits model env request w) as (r & w1 & H1 & Hx).
  rewrite H in H1. injection H1 as -> ->. exact Hx.
Qed.

(** ** Counting detections *)

Lemma count_box_lookup class_names (acc : gmap string nat) (b : Box) (name : string) :
  count_box class_names acc b !! name
  = if String.eqb (class_name_of class_names (cls_0 b)) name
    then Some (default 0 (acc !! name) + 1)
    else acc !! name.
Proof.
  unfold count_box.
  destruct (String.eqb (class_name_of class_names (cls_0 b)) name) eqn:E.
  - apply String.eqb_eq in E. rewrite E. apply lookup_insert_eq.
  - apply String.eqb_neq in E. now apply lookup_insert_ne.
Qed.

Lemma fold_count_lookup class_names (bs : list Box) (acc : gmap string nat)
    (name : string) :
  List.fold_left (count_box class_names) bs acc !! name
  = match acc !! name, detections_named class_names name bs with
    | None, 0 => None
    | o, k => Some (default 0 o + k)
    end.
Proof.
  revert acc. induction bs as [|b bs IH]; intros acc.
  - cbn. destruct (acc !! name); cbn; [f_equal; lia | reflexivity].
  - cbn [List.fold_left]. rewrite IH, count_box_lookup.
    unfold detections_named. cbn [List.filter].
    destruct (String.eqb (class_name_of class_names (cls_0 b)) name).
    + destruct (acc !! name); cbn; f_equal; lia.
    + reflexivity.
Qed.

Lemma sum_values_empty : sum_values ∅ = 0.
Proof. apply map_fold_empty. Qed.

Lemma sum_values_insert (m : gmap string nat) (k : string) (v : nat) :
  m !! k = None -> sum_values (<[k := v]> m) = sum_values m + v.
Proof.
  intros Hk. unfold sum_values.
  rewrite map_fold_insert_L; [reflexivity | | exact Hk].
  intros; lia.
Qed.

Lemma sum_values_count_box class_names (acc : gmap string nat) (b : Box) :
  sum_values (count_box class_names acc b) = S (sum_values acc).
Proof.
  unfold count_box. set (k := class_name_of class_names (cls_0 b)).
  destruct (acc !! k) as [v|] eqn:Hk; cbn.
  - rewrite <- insert_delete_eq.
    rewrite sum_values_insert by apply lookup_delete_eq.
    rewrite <- (insert_id acc k v Hk) at 2.
    rewrite <- insert_delete_eq.
    rewrite (sum_values_insert (delete k acc) k v) by apply lookup_delete_eq.
    lia.
  - rewrite sum_values_insert by exact Hk. lia.
Qed.

Lemma sum_values_fold class_names (bs : list Box) (acc : gmap string nat) :
  sum_values (List.fold_left (count_box class_names) bs acc)
  = sum_values acc + length bs.
Proof.
  revert acc. induction bs as [|b bs IH]; intros acc; cbn.
  - lia.
  - rewrite IH, sum_values_count_box. lia.
Qed.

Lemma total_detections_sum (stats : gmap string nat) :
  total_detections stats = sum_values stats.
Proof.
  unfold total_detections. case_bool_decide as H; [| reflexivity].
  rewrite H. symmetry. apply sum_values_empty.
Qed.

Lemma total_detections_count class_names (detections : option (list Box)) :
  total_detections (count_detections class_names detections)
  = match detections with Some bs => length bs | None => 0 end.
Proof.
  rewrite total_detections_sum. unfold count_detections.
  destruct detections as [[|b bs]|]; cbn [length Nat.ltb Nat.leb];
    try apply sum_values_empty.
  rewrite sum_values_fold, sum_values_empty. reflexivity.
Qed.

(** ** Accepted uploads *)

(** The name of an accepted upload has a last dot; the allocator works on
    the two sides of it. *)
Lemma accepted_names env request file :
  accepted request file ->
  exists stem ext0,
    PyStr.cut_last_dot (filename file) = Some (stem, ext0) /\
    file_extension (filename file) = PyStr.lower ext0 /\
    base_name (allocate env file) = Werkzeug.secure_filename stem /\
    extension (allocate env file) = PyStr.lower ext0.
Proof.
  intros [_ Hext]. unfold file_extension in Hext.
  destruct (PyStr.contains_dot (filename file)) eqn:Hdot.
  2: { vm_compute in Hext. discriminate. }
  pose proof Hdot as Hcut. apply cut_last_dot_contains in Hcut.
  destruct Hcut as [[stem ext0] Hcut]. exists stem, ext0.
  unfold file_extension, allocate, PyStr.rsplit_dot_1.
  cbn [base_name extension]. rewrite Hdot, Hcut. auto.
Qed.

Lemma reply_codes model env request w resp w' :
  exit_of model env request w resp w' ->
  status_code resp = 200 ->
  exists file,
    accepted request file /\
    predict_try env model file (allocate env file) w = (inr resp, w').
Proof.
  intros H Hcode. destruct H; try discriminate Hcode. eauto.
Qed.

(** The stored names are made of [A-Za-z0-9_.-] only, so they need no
    escaping in a URL and hold no path separator. *)
Lemma unique_filename_chars env request file :
  accepted request file ->
  all_chars Werkzeug.is_safe (unique_filename (allocate env file)) = true /\
  all_chars Werkzeug.is_safe (result_filename (allocate env file)) = true.
Proof.
  intros Hacc.
  destruct (accepted_names env _ _ Hacc) as (stem & ext0 & _ & Hfe & Hbase & Hext).
  assert (Hu : all_chars Werkzeug.is_safe (unique_filename (allocate env file))
               = true).
  { rewrite allocate_unique_filename, Hbase, Hext, <- Hfe.
    rewrite !all_chars_app, secure_filename_safe.
    change (timestamp (allocate env file))
      with (PyStr.str_of_int (time_time env)).
    change (unique_id (allocate env file))
      with (PyStr.take_prefix 8 (PyLib.uuid_str (uuid4_int env))).
    rewrite str_of_int_safe, unique_id_safe.
    rewrite (allowed_extension_safe _ (proj2 Hacc)). reflexivity. }
  split; [exact Hu |].
  rewrite allocate_result_filename, all_chars_app, Hu. reflexivity.
Qed.





(** ** The extension of the stored names *)

Lemma lower_char_upper (c : ascii) :
  PyStr.is_upper c = true -> PyStr.lower_char c <> c.
Proof.
  intros Hup Heq. unfold PyStr.lower_char in Heq. rewrite Hup in Heq.
  unfold PyStr.is_upper in Hup. apply andb_prop in Hup as [_ H2].
  apply Nat.leb_le in H2.
  apply (f_equal nat_of_ascii) in Heq.
  rewrite nat_ascii_embedding in Heq by lia. lia.
Qed.

Lemma lower_changes_upper (s : string) :
  has_upper s = true -> PyStr.lower s <> s.
Proof.
  induction s as [|c s IH]; simpl; [discriminate |].
  intros H Heq. injection Heq as Hc Hs.
  apply orb_prop in H as [H | H].
  - now apply (lower_char_upper c).
  - now apply IH.
Qed.

Lemma name_before_extension (a b c e : string) :
  a ++ "_" ++ b ++ "_" ++ c ++ "." ++ e = (a ++ "_" ++ b ++ "_" ++ c) ++ "." ++ e.
Proof. now rewrite !append_assoc. Qed.

(** C10: for every accepted upload, with [ext0] what follows the last dot
    of the original name, the part after the last dot of the allocated
    unique filename and of the result filename is [ext0.lower()]; when
    [ext0] has an upper case letter this differs from [ext0]. *)
Theorem C10_extension_lowercased env request file stem ext0 :
  accepted request file ->
  PyStr.cut_last_dot (filename file) = Some (stem, ext0) ->
  let n := allocate env file in
  PyStr.cut_last_dot (unique_filename n)
    = Some (base_name n ++ "_" ++ timestamp n ++ "_" ++ unique_id n,
            PyStr.lower ext0) /\
  PyStr.cut_last_dot (result_filename n)
    = Some ("result_" ++ base_name n ++ "_" ++ timestamp n ++ "_" ++ unique_id n,
            PyStr.lower ext0) /\
  (has_upper ext0 = true -> PyStr.lower ext0 <> ext0).
Proof.
  intros Hacc Hcut n.
  destruct (accepted_names env _ _ Hacc) as (stem' & ext0' & Hcut' & _ & _ & Hext).
  rewrite Hcut in Hcut'. injection Hcut' as <- <-. fold n in Hext.
  assert (Hnodot : PyStr.contains_dot (PyStr.lower ext0) = false).
  { rewrite lower_contains_dot. now apply (cut_last_dot_spec _ _ _ Hcut). }
  split; [| split].
  - unfold n. rewrite allocate_unique_filename. fold n. rewrite Hext.
    rewrite name_before_extension. now apply cut_last_dot_app.
  - unfold n. rewrite allocate_result_filename, allocate_unique_filename.
    fold n. rewrite Hext.
    rewrite name_before_extension, <- append_assoc.
    now apply cut_last_dot_app.
  - apply lower_changes_upper.
Qed.

Lemma C10_extension_lowercased_witness :
  accepted (Sample.post "My Cat.JPG") (Sample.upload "My Cat.JPG") /\
  PyStr.cut_last_dot (filename (Sample.upload "My Cat.JPG"))
    = Some ("My Cat", "JPG") /\
  PyStr.cut_last_dot
    (unique_filename (allocate Sample.env (Sample.upload "My Cat.JPG")))
    = Some ("My_Cat_1700000000_3f2a9c1d", "jpg") /\
  PyStr.lower "JPG" <> "JPG".
Proof.
  assert (Hacc : accepted (Sample.post "My Cat.JPG") (Sample.upload "My Cat.JPG"))
    by (split; vm_compute; reflexivity).
  assert (Hcut : PyStr.cut_last_dot (filename (Sample.upload "My Cat.JPG"))
                 = Some ("My Cat", "JPG")) by reflexivity.
  destruct (C10_extension_lowercased Sample.env _ _ _ _ Hacc Hcut)
    as (Hu & _ & Hneq).
  split; [exact Hacc |]. split; [exact Hcut |].
  split; [exact Hu | apply Hneq; reflexivity].
Defined.

(** ** The validator *)

Lemma file_extension_after_last_dot (name : string) :
  file_extension name = extension_after_last_dot name.
Proof.
  unfold file_extension, extension_after_last_dot, PyStr.rsplit_dot_1.
  destruct (PyStr.cut_last_dot name) as [[b a]|] eqn:Hcut.
  - assert (H : PyStr.contains_dot name = true)
      by (apply cut_last_dot_contains; rewrite Hcut; eauto).
    now rewrite H.
  - destruct (PyStr.contains_dot name) eqn:H; [| reflexivity].
    apply cut_last_dot_contains in H. rewrite Hcut in H.
    destruct H as [? ?]; discriminate.
Qed.

Lemma join_occurs (sep e : string) (l : list string) :
  In e l -> occurs_in e (PyStr.join sep l).
Proof.
  induction l as [|x [|y r] IH]; intros H.
  - destruct H.
  - destruct H as [-> | []]. exists "", "". cbn. now rewrite append_empty_r.
  - change (PyStr.join sep (x :: y :: r)) with (x ++ sep ++ PyStr.join sep (y :: r)).
    destruct H as [-> | H].
    + exists "", (sep ++ PyStr.join sep (y :: r)). reflexivity.
    + destruct (IH H) as (pre & post & ->).
      exists (x ++ sep ++ pre), post. now rewrite !append_assoc.
Qed.

Lemma occurs_in_suffix (e pre s : string) :
  occurs_in e s -> occurs_in e (pre ++ s).
Proof.
  intros (a & b & ->). exists (pre ++ a), b. now rewrite append_assoc.
Qed.

Lemma accepted_not_turned_down request file :
  accepted request file -> ~ turned_down request.
Proof.
  intros Hacc Htd. pose proof (accepted_filename _ _ Hacc) as Hname.
  destruct Hacc as [Hfile Hext]. unfold turned_down in Htd. rewrite Hfile in Htd.
  destruct Htd as [Hempty | Hnot].
  - rewrite Hempty in Hname. discriminate.
  - apply Hnot. rewrite <- file_extension_after_last_dot. now apply mem_In.
Qed.

(** C2: with a loaded model, [predict] replies 400 exactly when the
    [image] part is absent, or its file name is empty, or its extension
    (what follows the last dot, case folded, empty without a dot) is not in
    the allow-list.  In each of these cases nothing is written to disk and
    no external call (in particular no model call) is made; the three
    messages are the ones below and differ from one another, and the third
    names every allowed extension. *)
Theorem C2_validator model env request w :
  Permutation (set_order env) allowed_extensions ->
  exists resp w',
    predict (Some model) env request w = (inr resp, w') /\
    (status_code resp = 400 <-> turned_down request) /\
    (turned_down request -> fs w' = fs w /\ log w' = log w) /\
    (files request !! "image" = None ->
       error_of resp = "No image file part in the request.") /\
    (forall file,
       files request !! "image" = Some file -> filename file = "" ->
       error_of resp = "No selected file.") /\
    (forall file,
       files request !! "image" = Some file -> filename file <> "" ->
       ~ In (extension_after_last_dot (filename file)) allowed_extensions ->
       error_of resp
         = "Invalid file type. Supported formats: "
             ++ PyStr.join ", " (set_order env) /\
       error_of resp <> "No image file part in the request." /\
       error_of resp <> "No selected file." /\
       forall e, In e allowed_extensions -> occurs_in e (error_of resp)).
Proof.
  intros Hperm.
  destruct (predict_exits model env request w) as (resp & w' & Hrun & Hexit).
  exists resp, w'. split; [exact Hrun |].
  destruct Hexit as [Hfile | file Hfile Hname | file Hfile Hname Hext
                    | file resp w' Hacc Htry | file e w1 w' Hacc Htry Hexc].
  - (* no part *)
    unfold turned_down. rewrite Hfile.
    repeat split; auto; intros; congruence.
  - (* empty name *)
    unfold turned_down. rewrite Hfile.
    repeat split; auto; intros; congruence.
  - (* extension not allowed *)
    assert (Hnot : ~ In (extension_after_last_dot (filename file))
                       allowed_extensions).
    { rewrite <- file_extension_after_last_dot, <- mem_In. congruence. }
    unfold turned_down. rewrite Hfile.
    split; [split; auto |]. split; [auto |]. split; [congruence |].
    split; [intros file' [= <-]; contradiction |].
    intros file' [= <-] _ _.
    split; [reflexivity |].
    split; [cbv [error_of reply_bad_type with_status jsonify error_body body
                   field String.eqb Ascii.eqb Bool.eqb String.append];
            discriminate |].
    split; [cbv [error_of reply_bad_type with_status jsonify error_body body
                   field String.eqb Ascii.eqb Bool.eqb String.append];
            discriminate |].
    intros e He.
    change (error_of (reply_bad_type env))
      with ("Invalid file type. Supported formats: "
              ++ PyStr.join ", " (set_order env)).
    apply occurs_in_suffix, join_occurs.
    eapply Permutation_in; [symmetry; exact Hperm | exact He].
  - (* the try block returned *)
    pose proof (accepted_not_turned_down _ _ Hacc) as Hntd.
    destruct (predict_try_returns _ _ _ _ _ _ _
                (allocate_paths_differ env file) Htry)
      as (r0 & rest & img & enc & _ & _ & _ & _ & _ & _ & ->).
    pose proof (accepted_filename _ _ Hacc) as Hname.
    destruct Hacc as [Hfile Hext].
    split; [split; [discriminate | contradiction] |].
    split; [contradiction |]. split; [congruence |].
    split.
    + intros file' Hf He. rewrite Hfile in Hf. injection Hf as <-.
      rewrite He in Hname. discriminate.
    + intros file' Hf _ Hn. rewrite Hfile in Hf. injection Hf as <-.
      exfalso. apply Hn. rewrite <- file_extension_after_last_dot.
      now apply mem_In.
  - (* the try block raised *)
    pose proof (accepted_not_turned_down _ _ Hacc) as Hntd.
    pose proof (accepted_filename _ _ Hacc) as Hname.
    destruct Hacc as [Hfile Hext].
    split; [split; [discriminate | contradiction] |].
    split; [contradiction |]. split; [congruence |].
    split.
    + intros file' Hf He. rewrite Hfile in Hf. injection Hf as <-.
      rewrite He in Hname. discriminate.
    + intros file' Hf _ Hn. rewrite Hfile in Hf. injection Hf as <-.
      exfalso. apply Hn. rewrite <- file_extension_after_last_dot.
      now apply mem_In.
Qed.

Lemma C2_validator_witness :
  Permutation (set_order Sample.env) allowed_extensions /\
  let run := predict (Some Sample.model) Sample.env (Sample.post "notes.txt")
               Sample.world in
  status_code (Sample.reply_of run) = 400 /\
  fs (snd run) = fs Sample.world /\
  occurs_in "webp" (error_of (Sample.reply_of run)).
Proof.
  assert (Hperm : Permutation (set_order Sample.env) allowed_extensions).
  { apply (bool_decide_unpack _). vm_compute. exact I. }
  split; [exact Hperm |]. cbv zeta.
  destruct (C2_validator Sample.model Sample.env (Sample.post "notes.txt")
              Sample.world Hperm)
    as (resp & w' & Hrun & Hcode & Hquiet & _ & _ & Hbad).
  rewrite Hrun. unfold Sample.reply_of. cbn [fst snd].
  assert (Hfile : files (Sample.post "notes.txt") !! "image"
                  = Some (Sample.upload "notes.txt"))
    by (vm_compute; reflexivity).
  assert (Hext : ~ In (extension_after_last_dot
                         (filename (Sample.upload "notes.txt")))
                     allowed_extensions).
  { vm_compute. intros H. repeat (destruct H as [H | H]; [discriminate H |]).
    exact H. }
  assert (Htd : turned_down (Sample.post "notes.txt")).
  { unfold turned_down. rewrite Hfile. right. exact Hext. }
  split; [apply Hcode, Htd |]. split; [apply Hquiet, Htd |].
  apply (Hbad _ Hfile); [discriminate | exact Hext |].
  vm_compute. tauto.
Defined.

(** ** The absent model *)

Lemma dispatch_no_model (c : Call) (w : World) :
  dispatch None c w
  = (inr match c with
         | PostPredict _ _ => reply_no_model
         | GetHealth => health_check None
         end, w).
Proof. destruct c; reflexivity. Qed.

Lemma serve_no_model (calls : list Call) (w : World) :
  serve None calls w
  = (List.map (fun c => inr match c with
                            | PostPredict _ _ => reply_no_model
                            | GetHealth => health_check None
                            end) calls, w).
Proof.
  induction calls as [|c rest IH]; [reflexivity |].
  cbn [serve List.map]. now rewrite dispatch_no_model, IH.
Qed.

(** C3: when loading failed the handle is [None], and then, over any
    sequence of calls served by the process, every [POST /predict] is
    answered with status 500 and the body [{error, status: "error"}],
    whatever the request holds (nothing of it is looked at), while the disk
    and the log of external calls stay as they were. *)
Theorem C3_model_absent (calls : list Call) (w : World) :
  (forall e, load_model (inl e) = None) /\
  snd (serve None calls w) = w /\
  status_code reply_no_model = 500 /\
  body reply_no_model
    = [("error",
        JStr "Deep learning model not loaded. Please check server logs for details.");
       ("status", JStr "error")] /\
  forall i env request,
    calls !! i = Some (PostPredict env request) ->
    fst (serve None calls w) !! i = Some (inr reply_no_model) /\
    predict None env request w = (inr reply_no_model, w).
Proof.
  rewrite serve_no_model. cbn [fst snd].
  do 4 (split; [reflexivity |]).
  intros i env request Hi. split; [| reflexivity].
  now rewrite list_lookup_fmap, Hi.
Qed.

Lemma C3_model_absent_witness :
  let calls := [PostPredict Sample.env (Sample.post "cat.jpg");
                GetHealth;
                PostPredict Sample.env Sample.post_nothing] in
  snd (serve None calls Sample.world) = Sample.world /\
  fst (serve None calls Sample.world) !! 2 = Some (inr reply_no_model).
Proof.
  cbv zeta.
  destruct (C3_model_absent
              [PostPredict Sample.env (Sample.post "cat.jpg");
               GetHealth;
               PostPredict Sample.env Sample.post_nothing] Sample.world)
    as (_ & Hw & _ & _ & Hreply).
  split; [exact Hw |].
  apply (Hreply 2 Sample.env Sample.post_nothing). reflexivity.
Defined.

(** ** Exceptions after validation *)

(** Once [file.save] has returned, the upload stays on disk for the rest
    of the block. *)
Lemma predict_try_upload_kept env model file n w e w1 :
  uploaded_filepath n <> result_path n ->
  predict_try env model file n w = (inl e, w1) ->
  save_outcome env = None ->
  fs w1 !! uploaded_filepath n = Some (stream file).
Proof.
  intros Hne H Hsave. step_calls. rewrite Hsave in H. cbn [fs log] in H.
  destruct (run model _ _) as [e1|[|r0 rest]] eqn:Hrun; cbn in H.
  1,2: injection H as _ <-; cbn; apply lookup_insert_eq.
  destruct (plot r0) as [e2|img] eqn:Hplot; cbn in H.
  { injection H as _ <-. cbn. apply lookup_insert_eq. }
  destruct (image_save_outcome env img (result_path n))
    as [[e3 left]|enc] eqn:Himg; cbn in H.
  - destruct left; cbn in H; injection H as _ <-; cbn.
    + rewrite lookup_insert_ne by congruence. apply lookup_insert_eq.
    + apply lookup_insert_eq.
  - rewrite lookup_insert_ne, lookup_insert_eq in H by congruence.
    discriminate.
Qed.

(** C4: for an accepted upload, when [file.save], the model call, the
    rendering or the saving of the result image raises [e], the handler
    returns (nothing escapes it) the reply with status 500 whose [error] is
    the fixed prefix followed by [str(e)].  If the upload is on disk at that
    point (it is whenever [file.save] had returned) [os.remove] is called
    on it once; when that call succeeds the file is gone, when it raises
    the disk is left as it was and the reply is the same. *)
Theorem C4_exception_caught model env request file w e :
  accepted request file ->
  raised_in env model file (allocate env file) w e ->
  let path := uploaded_filepath (allocate env file) in
  exists w1 w',
    predict_try env model file (allocate env file) w = (inl e, w1) /\
    predict (Some model) env request w = (inr (reply_failed e), w') /\
    status_code (reply_failed e) = 500 /\
    error_of (reply_failed e)
      = "An error occurred during object detection: " ++ message e /\
    (save_outcome env = None -> is_Some (fs w1 !! path)) /\
    (is_Some (fs w1 !! path) ->
       log w' = (log w1 ++ [EvRemove path])%list /\
       fs w' = match remove_outcome env with
               | None => delete path (fs w1)
               | Some _ => fs w1
               end) /\
    (fs w1 !! path = None -> w' = w1) /\
    (remove_outcome env = None -> fs w' !! path = None).
Proof.
  intros Hacc Hraised path.
  pose proof (allocate_paths_differ env file) as Hne.
  apply (predict_try_raises _ _ _ _ _ _ Hne) in Hraised as [w1 Htry].
  destruct (predict_except_runs env (allocate env file) e w1)
    as (w' & Hexc & Habsent & Hpresent).
  exists w1, w'. split; [exact Htry |].
  split.
  { rewrite (predict_accepted model env request file Hacc).
    unfold try_except. now rewrite Htry. }
  split; [reflexivity |]. split; [reflexivity |].
  split.
  { intros Hsave. unfold path.
    rewrite (predict_try_upload_kept _ _ _ _ _ _ _ Hne Htry Hsave). eauto. }
  split; [exact Hpresent |]. split; [exact Habsent |].
  intros Hrm. fold path in Habsent, Hpresent.
  destruct (fs w1 !! path) as [data|] eqn:Hdisk.
  - destruct Hpresent as [_ Hfs]; [eauto |].
    rewrite Hfs, Hrm. apply lookup_delete_eq.
  - now rewrite (Habsent eq_refl).
Qed.

Lemma C4_exception_caught_witness :
  let e := {| message := "cannot write mode F as JPEG" |} in
  let run := predict (Some Sample.model) Sample.env_encode_fails
               (Sample.post "cat.jpg") Sample.world in
  accepted (Sample.post "cat.jpg") (Sample.upload "cat.jpg") /\
  raised_in Sample.env_encode_fails Sample.model (Sample.upload "cat.jpg")
    (allocate Sample.env_encode_fails (Sample.upload "cat.jpg")) Sample.world e /\
  fst run = inr (reply_failed e) /\
  fs (snd run) !! "static/uploads/cat_1700000000_3f2a9c1d.jpg" = None.
Proof.
  cbv zeta.
  assert (Hacc : accepted (Sample.post "cat.jpg") (Sample.upload "cat.jpg"))
    by (split; vm_compute; reflexivity).
  assert (Hraised :
            raised_in Sample.env_encode_fails Sample.model
              (Sample.upload "cat.jpg")
              (allocate Sample.env_encode_fails (Sample.upload "cat.jpg"))
              Sample.world {| message := "cannot write mode F as JPEG" |}).
  { eapply raised_persist.
    - reflexivity.
    - vm_compute. reflexivity.
    - reflexivity.
    - reflexivity. }
  destruct (C4_exception_caught Sample.model _ _ _ Sample.world _ Hacc Hraised)
    as (w1 & w' & _ & Hrun & _ & _ & _ & _ & _ & Hgone).
  split; [exact Hacc |]. split; [exact Hraised |].
  rewrite Hrun. cbn [fst snd]. split; [reflexivity |].
  apply Hgone. reflexivity.
Defined.

(** The same at a request during which the disk fills up and the partial
    upload cannot be removed: the second exception is swallowed. *)
Example C4_disk_full :
  let run := predict (Some Sample.model) Sample.env_disk_full
               (Sample.post "cat.jpg") Sample.world in
  fst run = inr (reply_failed {| message := "[Errno 28] No space left on device" |}) /\
  log (snd run) = [EvSave "static/uploads/cat_1700000000_3f2a9c1d.jpg";
                   EvRemove "static/uploads/cat_1700000000_3f2a9c1d.jpg"] /\
  fs (snd run) !! "static/uploads/cat_1700000000_3f2a9c1d.jpg" = Some [Byte.x00].
Proof. repeat split; vm_compute; reflexivity. Qed.

(** ** The success payload *)

(** C5: the body of every reply with status 200 has exactly these eight
    entries: the status flag, the URL of the stored upload, the URL of the
    stored result image, the class-to-count mapping computed from the boxes
    of the model's first result, the total, which is the sum of the
    mapping's values (0 for the empty mapping), the allocated file name, the
    timestamp that is part of that name, and the number of bytes of the
    upload as it is on disk. *)
Theorem C5_success_payload model env request w resp w' :
  predict (Some model) env request w = (inr resp, w') ->
  status_code resp = 200 ->
  exists file r0 rest data,
    let n := allocate env file in
    let stats := count_detections (names model) (boxes r0) in
    files request !! "image" = Some file /\
    run model (saved file n (fs w)) (inference_args (uploaded_filepath n))
      = inr (r0 :: rest) /\
    fs w' !! ("static/uploads/" ++ unique_filename n) = Some data /\
    is_Some (fs w' !! ("static/results/" ++ result_filename n)) /\
    timestamp n = PyStr.str_of_int (time_time env) /\
    (stats = ∅ -> sum_values stats = 0) /\
    body resp =
      [("status", JStr "success");
       ("uploaded_image_url", JStr ("/static/uploads/" ++ unique_filename n));
       ("result_image_url", JStr ("/static/results/" ++ result_filename n));
       ("detection_stats", JCounts stats);
       ("total_detections", JInt (Z.of_nat (sum_values stats)));
       ("filename", JStr (unique_filename n));
       ("timestamp", JStr (timestamp n));
       ("file_size", JInt (Z.of_nat (length data)))].
Proof.
  intros Hrun Hcode. apply predict_exit_inv in Hrun.
  destruct (reply_codes _ _ _ _ _ _ Hrun Hcode) as (file & Hacc & Htry).
  pose proof (allocate_paths_differ env file) as Hne.
  destruct (predict_try_returns _ _ _ _ _ _ _ Hne Htry)
    as (r0 & rest & img & enc & _ & Hmodel & _ & _ & Hfs & _ & ->).
  exists file, r0, rest, (stream file). cbv zeta.
  split; [apply Hacc |]. split; [exact Hmodel |].
  rewrite <- allocate_uploaded_filepath.
  change ("static/results/" ++ result_filename (allocate env file))
    with (result_path (allocate env file)).
  rewrite Hfs. unfold saved.
  split; [rewrite lookup_insert_ne by congruence; apply lookup_insert_eq |].
  split; [rewrite lookup_insert_eq; eauto |].
  split; [reflexivity |].
  split; [intros ->; apply sum_values_empty |].
  rewrite total_detections_sum. reflexivity.
Qed.

Lemma C5_success_payload_witness :
  let run := predict (Some Sample.model) Sample.env (Sample.post "My Cat.JPG")
               Sample.world in
  run = (inr (Sample.reply_of run), snd run) /\
  status_code (Sample.reply_of run) = 200 /\
  List.map fst (body (Sample.reply_of run))
    = ["status"; "uploaded_image_url"; "result_image_url"; "detection_stats";
       "total_detections"; "filename"; "timestamp"; "file_size"] /\
  field "total_detections" (body (Sample.reply_of run)) = Some (JInt 3) /\
  field "file_size" (body (Sample.reply_of run)) = Some (JInt 3).
Proof.
  cbv zeta.
  assert (Hrun : predict (Some Sample.model) Sample.env (Sample.post "My Cat.JPG")
                   Sample.world
                 = (inr (Sample.reply_of
                           (predict (Some Sample.model) Sample.env
                              (Sample.post "My Cat.JPG") Sample.world)),
                    snd (predict (Some Sample.model) Sample.env
                           (Sample.post "My Cat.JPG") Sample.world)))
    by (vm_compute; reflexivity).
  assert (Hcode : status_code
                    (Sample.reply_of
                       (predict (Some Sample.model) Sample.env
                          (Sample.post "My Cat.JPG") Sample.world)) = 200)
    by (vm_compute; reflexivity).
  destruct (C5_success_payload _ _ _ _ _ _ Hrun Hcode)
    as (file & r0 & rest & data & _ & _ & _ & _ & _ & _ & Hbody).
  split; [exact Hrun |]. split; [exact Hcode |].
  split; [rewrite Hbody; reflexivity |].
  split; vm_compute; reflexivity.
Defined.

(** C6: a class id is resolved through the model's table, and to
    [Class_{id}] when the table has no entry for it; in the mapping built
    from a detection set, a name is present exactly when some detection
    resolves to it, and its count is the number of detections that do.
    Without boxes ([None] or an empty set) the mapping is empty. *)
Theorem C6_detection_stats (class_names : gmap Z string)
    (detections : option (list Box)) (name : string) (class_id : Z) :
  class_name_of class_names class_id
    = match class_names !! class_id with
      | Some s => s
      | None => "Class_" ++ PyStr.str_of_int class_id
      end /\
  count_detections class_names detections !! name
    = match detections with
      | Some bs =>
          match detections_named class_names name bs with
          | 0 => None
          | k => Some k
          end
      | None => None
      end.
Proof.
  split.
  - unfold class_name_of. now destruct (class_names !! class_id).
  - unfold count_detections. destruct detections as [[|b bs]|].
    + reflexivity.
    + change (Nat.ltb 0 (length (b :: bs))) with true. cbv iota.
      rewrite fold_count_lookup, lookup_empty.
      now destruct (detections_named class_names name (b :: bs)).
    + reflexivity.
Qed.

Example C6_sample :
  let stats := count_detections (names Sample.model)
                 (Some [ {| cls_0 := 0 |}; {| cls_0 := 7 |}; {| cls_0 := 0 |} ]) in
  stats !! "plane" = Some 2 /\ stats !! "Class_7" = Some 1 /\
  stats !! "bird" = None /\ total_detections stats = 3.
Proof. repeat split; vm_compute; reflexivity. Qed.

(** ** Health *)

(** C7: [GET /health] returns without raising and without touching the
    world, with status 200; the body says [healthy] and [true] when the
    handle is present and [degraded] and [false] when it is absent, and
    in no other case. *)
Theorem C7_health (model : option YOLO) (w : World) :
  dispatch model GetHealth w = (inr (health_check model), w) /\
  status_code (health_check model) = 200 /\
  (forall m, model = Some m ->
     body (health_check model)
     = [("status", JStr "healthy"); ("model_loaded", JBool true);
        ("service", JStr "SkyVision Object Detection API")]) /\
  (model = None ->
     body (health_check model)
     = [("status", JStr "degraded"); ("model_loaded", JBool false);
        ("service", JStr "SkyVision Object Detection API")]) /\
  (field "status" (body (health_check model)) = Some (JStr "healthy")
     <-> model <> None) /\
  (field "model_loaded" (body (health_check model)) = Some (JBool true)
     <-> model <> None) /\
  (field "status" (body (health_check model)) = Some (JStr "degraded")
     <-> model = None) /\
  (field "model_loaded" (body (health_check model)) = Some (JBool false)
     <-> model = None).
Proof.
  split; [reflexivity |]. split; [reflexivity |].
  destruct model as [m|]; cbn.
  - repeat split; intros; try reflexivity; try discriminate; congruence.
  - repeat split; intros; try reflexivity; try discriminate; congruence.
Qed.

Lemma C7_health_witness :
  body (health_check (Some Sample.model))
    = [("status", JStr "healthy"); ("model_loaded", JBool true);
       ("service", JStr "SkyVision Object Detection API")] /\
  field "status" (body (health_check (load_model (inl {| message := "no file" |}))))
    = Some (JStr "degraded").
Proof.
  destruct (C7_health (Some Sample.model) Sample.world)
    as (_ & _ & Hup & _).
  destruct (C7_health (load_model (inl {| message := "no file" |})) Sample.world)
    as (_ & _ & _ & _ & _ & _ & Hdown & _).
  split; [apply (Hup Sample.model); reflexivity |].
  apply Hdown. reflexivity.
Defined.

(** ** Error replies *)

Ltac distinct_events :=
  repeat (apply NoDup_cons; split;
          [rewrite ?elem_of_cons, elem_of_nil; intuition discriminate |]);
  apply NoDup_nil_2.

Lemma calls_once (n : Names) (k : nat) (p : string) :
  NoDup (List.firstn k (full_log n)) /\
  NoDup (List.firstn k (full_log n) ++ [EvRemove p])%list.
Proof.
  unfold full_log.
  do 5 (try destruct k as [|k]); cbn; split; distinct_events.
Qed.

(** Every failure is answered with its status and its message. *)
Lemma failure_reply model env request w code msg :
  failure model env request w code msg ->
  exists w',
    predict model env request w
    = (inr (with_status (jsonify (error_body msg)) code), w').
Proof.
  intros [-> | m -> Hfile | m file -> Hfile Hname | m file -> Hfile Hname Hext
         | m file e -> Hacc Hraised].
  - exists w. reflexivity.
  - exists w. unfold predict. now rewrite Hfile.
  - exists w. unfold predict. rewrite Hfile, Hname. reflexivity.
  - exists w. unfold predict. rewrite Hfile.
    apply String.eqb_neq in Hname. rewrite Hname.
    rewrite <- file_extension_after_last_dot, <- mem_In in Hext.
    apply not_true_is_false in Hext. now rewrite Hext.
  - apply (predict_try_raises _ _ _ _ _ _ (allocate_paths_differ env file))
      in Hraised as [w1 Htry].
    destruct (predict_except_runs env (allocate env file) e w1)
      as (w' & Hexc & _).
    exists w'. rewrite (predict_accepted m env request file Hacc).
    unfold try_except. now rewrite Htry.
Qed.

(** A reply of [predict] that is not the success reply answers a failure. *)
Lemma exit_failure model env request w resp w' :
  exit_of model env request w resp w' ->
  status_code resp <> 200 ->
  exists code msg,
    failure (Some model) env request w code msg /\
    resp = with_status (jsonify (error_body msg)) code.
Proof.
  intros [Hfile | file Hfile Hname | file Hfile Hname Hext
         | file resp' w1 Hacc Htry | file e w1 w2 Hacc Htry Hexc] Hcode.
  - eexists _, _. split; [eapply failure_no_part; eauto | reflexivity].
  - eexists _, _. split; [eapply failure_no_file; eauto | reflexivity].
  - eexists _, _. split; [| reflexivity].
    eapply failure_bad_type; eauto.
    rewrite <- file_extension_after_last_dot, <- mem_In. congruence.
  - destruct (predict_try_returns _ _ _ _ _ _ _
                (allocate_paths_differ env file) Htry)
      as (r0 & rest & img & enc & _ & _ & _ & _ & _ & _ & ->).
    now contradiction Hcode.
  - eexists _, _. split; [| reflexivity].
    eapply failure_processing; eauto.
    apply (predict_try_raises _ _ _ _ _ _ (allocate_paths_differ env file)).
    eauto.
Qed.

(** C8: [predict] always returns a reply, with status 200, 400 or 500.
    Every failure of the request (model not available; no part, no file
    name or a type that is not allowed; an exception while the accepted
    upload is processed) is answered in that reply, with the status of its
    kind and the body [{"error": msg, "status": "error"}] carrying its
    message; conversely every reply whose status is not 200 has such a body
    and answers a failure, so that the status is 200 exactly when nothing
    failed.  The external calls made for the request are pairwise
    different: no step is run a second time. *)
Theorem C8_error_replies (model : option YOLO) env request w :
  exists resp w' evs,
    predict model env request w = (inr resp, w') /\
    (status_code resp = 200 \/ status_code resp = 400 \/ status_code resp = 500) /\
    (status_code resp <> 200 ->
       exists msg, body resp = [("error", JStr msg); ("status", JStr "error")]) /\
    (forall code msg,
       failure model env request w code msg ->
       (code = 400 \/ code = 500) /\
       status_code resp = code /\
       body resp = [("error", JStr msg); ("status", JStr "error")]) /\
    (status_code resp <> 200 ->
       exists code msg, failure model env request w code msg) /\
    (status_code resp = 200 <->
       forall code msg, ~ failure model env request w code msg) /\
    log w' = (log w ++ evs)%list /\
    NoDup evs.
Proof.
  assert (Hkinds : forall code msg,
            failure model env request w code msg -> code = 400 \/ code = 500).
  { intros code msg []; auto. }
  assert (Hanswer : forall resp w',
            predict model env request w = (inr resp, w') ->
            forall code msg,
              failure model env request w code msg ->
              (code = 400 \/ code = 500) /\
              status_code resp = code /\
              body resp = [("error", JStr msg); ("status", JStr "error")]).
  { intros resp w' Hrun code msg Hfail.
    destruct (failure_reply _ _ _ _ _ _ Hfail) as (w2 & Hrun2).
    rewrite Hrun in Hrun2. injection Hrun2 as -> _.
    split; [now apply (Hkinds code msg) |]. split; reflexivity. }
  assert (Hconv : forall resp w',
            predict model env request w = (inr resp, w') ->
            status_code resp <> 200 ->
            exists code msg, failure model env request w code msg).
  { intros resp w' Hrun Hcode. destruct model as [m|].
    - apply predict_exit_inv in Hrun.
      destruct (exit_failure _ _ _ _ _ _ Hrun Hcode) as (code & msg & Hf & _).
      eauto.
    - eexists _, _. now apply failure_unavailable. }
  assert (Hiff : forall resp w',
            predict model env request w = (inr resp, w') ->
            (status_code resp = 200 \/ status_code resp = 400
             \/ status_code resp = 500) ->
            (status_code resp = 200 <->
               forall code msg, ~ failure model env request w code msg)).
  { intros resp w' Hrun Hcodes. split.
    - intros H200 code msg Hfail.
      destruct (Hanswer _ _ Hrun _ _ Hfail) as ([-> | ->] & Hc & _);
        rewrite H200 in Hc; discriminate.
    - intros Hnone.
      destruct (Nat.eq_dec (status_code resp) 200) as [H | H]; [exact H |].
      destruct (Hconv _ _ Hrun H) as (code & msg & Hfail).
      now destruct (Hnone code msg). }
  assert (Hmain : exists resp w' evs,
            predict model env request w = (inr resp, w') /\
            (status_code resp = 200 \/ status_code resp = 400
             \/ status_code resp = 500) /\
            (status_code resp <> 200 ->
               exists msg,
                 body resp = [("error", JStr msg); ("status", JStr "error")]) /\
            log w' = (log w ++ evs)%list /\
            NoDup evs).
  { destruct model as [model|].
    2: { exists reply_no_model, w, []. split; [reflexivity |].
         split; [auto |]. split; [eauto |].
         split; [now rewrite app_nil_r | constructor]. }
    destruct (predict_exits model env request w) as (resp & w' & Hrun & Hexit).
    destruct Hexit as [Hfile | file Hfile Hname | file Hfile Hname Hext
                      | file resp w' Hacc Htry | file e w1 w' Hacc Htry Hexc].
    1-3: eexists _, w, []; split; [exact Hrun |];
         (split; [auto |]); (split; [eauto |]);
         (split; [now rewrite app_nil_r | constructor]).
    - destruct (predict_try_returns _ _ _ _ _ _ _
                  (allocate_paths_differ env file) Htry)
        as (r0 & rest & img & enc & _ & _ & _ & _ & _ & Hlog & ->).
      eexists _, w', (full_log (allocate env file)).
      split; [exact Hrun |]. split; [auto |].
      split; [intros H; now contradiction H |].
      split; [exact Hlog |].
      apply (calls_once (allocate env file) 4 "").
    - destruct (predict_try_log _ _ _ _ _ _ _ Htry) as (k & Hlog1 & _).
      destruct (predict_except_runs env (allocate env file) e w1)
        as (w2 & Hexc2 & Habsent & Hpresent).
      rewrite Hexc in Hexc2. injection Hexc2 as <-.
      destruct (fs w1 !! uploaded_filepath (allocate env file)) as [data|] eqn:Hdisk.
      + destruct Hpresent as [Hlog2 _]; [eauto |].
        eexists _, w', _. split; [exact Hrun |]. split; [auto |].
        split; [eauto |].
        split; [rewrite Hlog2, Hlog1, <- app_assoc; reflexivity |].
        apply calls_once.
      + rewrite (Habsent eq_refl) in *.
        eexists _, w1, _. split; [exact Hrun |]. split; [auto |].
        split; [eauto |]. split; [exact Hlog1 |].
        apply (calls_once (allocate env file) k ""). }
  destruct Hmain as (resp & w' & evs & Hrun & Hcodes & Hbody & Hlog & Hnodup).
  exists resp, w', evs.
  split; [exact Hrun |]. split; [exact Hcodes |]. split; [exact Hbody |].
  split; [exact (Hanswer _ _ Hrun) |]. split; [exact (Hconv _ _ Hrun) |].
  split; [exact (Hiff _ _ Hrun Hcodes) |]. split; [exact Hlog | exact Hnodup].
Qed.

(** On samples: an upload that cannot be saved, and a request without the
    part, are failures and are answered as such. *)
Example C8_failures_answered :
  failure (Some Sample.model) Sample.env_disk_full (Sample.post "cat.jpg")
    Sample.world 500
    ("An error occurred during object detection: "
       ++ "[Errno 28] No space left on device") /\
  status_code
    (Sample.reply_of
       (predict (Some Sample.model) Sample.env_disk_full (Sample.post "cat.jpg")
          Sample.world)) = 500 /\
  failure (Some Sample.model) Sample.env Sample.post_nothing Sample.world 400
    "No image file part in the request." /\
  status_code
    (Sample.reply_of
       (predict (Some Sample.model) Sample.env Sample.post_nothing Sample.world))
    = 400 /\
  status_code
    (Sample.reply_of
       (predict (Some Sample.model) Sample.env (Sample.post "cat.jpg")
          Sample.world)) = 200.
Proof.
  split.
  { apply (failure_processing _ _ _ _ Sample.model (Sample.upload "cat.jpg")
             {| message := "[Errno 28] No space left on device" |});
      [reflexivity | split; vm_compute; reflexivity |].
    eapply raised_save. reflexivity. }
  split; [vm_compute; reflexivity |].
  split; [eapply failure_no_part; [reflexivity | vm_compute; reflexivity] |].
  split; vm_compute; reflexivity.
Qed.

(** ** The last [return] of [predict] *)

Lemma reply_failed_not_fallback (e : Exception) : reply_failed e <> reply_fallback.
Proof.
  unfold reply_failed, reply_fallback, with_status, jsonify, error_body.
  cbn [body]. intros H. injection H as H.
  cbv [String.append] in H. discriminate.
Qed.

(** C9: no run of [predict] ends in the reply of lines 145-148.  A
    request that passes the extension check has a non-empty file name, so
    its file object is truthy and the handler leaves through the [try]
    statement. *)
Theorem C9_fallback_unreachable (model : option YOLO) env request w :
  fst (predict model env request w) <> inr reply_fallback /\
  forall m file,
    model = Some m ->
    files request !! "image" = Some file ->
    PyStr.mem (file_extension (filename file)) allowed_extensions = true ->
    filename file <> "" /\
    FileStorage_bool file = true /\
    predict model env request w
    = try_except (predict_try env m file (allocate env file))
        (predict_except env (allocate env file)) w.
Proof.
  split.
  - destruct model as [model|]; [| cbn; discriminate].
    destruct (predict_exits model env request w) as (resp & w' & Hrun & Hexit).
    rewrite Hrun. cbn [fst]. intros [= ->].
    remember reply_fallback as r eqn:Hr.
    destruct Hexit as [Hfile | file Hfile Hname | file Hfile Hname Hext
                      | file resp w' Hacc Htry | file e w1 w' Hacc Htry Hexc];
      try discriminate Hr; try now apply (reply_failed_not_fallback e).
    destruct (predict_try_returns _ _ _ _ _ _ _
                (allocate_paths_differ env file) Htry)
      as (r0 & rest & img & enc & _ & _ & _ & _ & _ & _ & ->).
    discriminate Hr.
  - intros m file -> Hfile Hext.
    assert (Hacc : accepted request file) by (split; assumption).
    pose proof (accepted_filename _ _ Hacc) as Hname.
    split; [intros Hempty; rewrite Hempty in Hname; discriminate |].
    split; [unfold FileStorage_bool; now rewrite Hname |].
    now rewrite (predict_accepted m env request file Hacc).
Qed.

Lemma C9_fallback_unreachable_witness :
  fst (predict (Some Sample.model) Sample.env (Sample.post "cat.jpg") Sample.world)
    <> inr reply_fallback /\
  FileStorage_bool (Sample.upload "cat.jpg") = true.
Proof.
  destruct (C9_fallback_unreachable (Some Sample.model) Sample.env
              (Sample.post "cat.jpg") Sample.world) as [Hnot Hpass].
  split; [exact Hnot |].
  apply (Hpass Sample.model (Sample.upload "cat.jpg") eq_refl);
    vm_compute; reflexivity.
Defined.

(** * Further properties *)

(** ** Reading a stored name back *)

Lemma append_inv_head (a b c : string) : a ++ b = a ++ c -> b = c.
Proof.
  induction a as [|x a IH]; intros H; [exact H |].
  rewrite !append_cons in H. injection H. auto.
Qed.

Lemma length_append (a b : string) :
  String.length (a ++ b) = String.length a + String.length b.
Proof.
  induction a as [|x a IH]; [reflexivity |].
  rewrite append_cons. cbn [String.length]. now rewrite IH.
Qed.

(** Two cuts of one string with tails of the same length are the same cut. *)
Lemma append_inj_tail (a a' b b' : string) :
  String.length b = String.length b' ->
  a ++ b = a' ++ b' -> a = a' /\ b = b'.
Proof.
  intros Hlen. revert a'. induction a as [|x a IH]; intros [|x' a'] H.
  - now rewrite !append_nil in H.
  - apply (f_equal String.length) in H.
    rewrite append_nil, append_cons in H. cbn [String.length] in H.
    rewrite length_append in H. lia.
  - apply (f_equal String.length) in H.
    rewrite append_nil, append_cons in H. cbn [String.length] in H.
    rewrite length_append in H. lia.
  - rewrite !append_cons in H. injection H as -> H.
    destruct (IH a' H) as [-> ->]. auto.
Qed.

(** Two cuts of one string at a character that the tails do not hold are
    the same cut. *)
Lemma append_inj_sep (c : ascii) (a a' b b' : string) :
  all_chars (fun d => negb (Ascii.eqb d c)) b = true ->
  all_chars (fun d => negb (Ascii.eqb d c)) b' = true ->
  a ++ String c b = a' ++ String c b' -> a = a' /\ b = b'.
Proof.
  intros Hb Hb'. revert a'. induction a as [|x a IH]; intros [|x' a'] H.
  - rewrite !append_nil in H. injection H as ->. auto.
  - rewrite append_nil, append_cons in H. injection H as <- ->.
    rewrite all_chars_app in Hb. apply andb_prop in Hb as [_ Hb].
    cbn in Hb. rewrite Ascii.eqb_refl in Hb. discriminate.
  - rewrite append_nil, append_cons in H. injection H as -> <-.
    rewrite all_chars_app in Hb'. apply andb_prop in Hb' as [_ Hb'].
    cbn in Hb'. rewrite Ascii.eqb_refl in Hb'. discriminate.
  - rewrite !append_cons in H. injection H as -> H.
    destruct (IH a' H) as [-> ->]. auto.
Qed.

Lemma contains_dot_all_chars (s : string) :
  PyStr.contains_dot s = false ->
  all_chars (fun d => negb (Ascii.eqb d ".")) s = true.
Proof.
  induction s as [|c s IH]; simpl; [reflexivity |].
  destruct (Ascii.eqb c "."); [discriminate | auto].
Qed.

Lemma string_of_uint_decimal (d : Decimal.uint) :
  all_chars is_decimal_char (NilEmpty.string_of_uint d) = true.
Proof. induction d; simpl; auto. Qed.

Lemma str_of_int_decimal (z : Z) :
  all_chars is_decimal_char (PyStr.str_of_int z) = true.
Proof.
  unfold PyStr.str_of_int, NilZero.string_of_int, NilZero.string_of_uint.
  destruct (Z.to_int z) as [d|d]; destruct d;
    first [reflexivity | apply string_of_uint_decimal
          | cbn [all_chars]; rewrite string_of_uint_decimal; reflexivity].
Qed.

Lemma decimal_no_underscore (s : string) :
  all_chars is_decimal_char s = true ->
  all_chars (fun d => negb (Ascii.eqb d "_")) s = true.
Proof.
  apply all_chars_weaken. intros c Hc.
  destruct (Ascii.eqb c "_") eqn:E; [| reflexivity].
  apply Ascii.eqb_eq in E. subst c. vm_compute in Hc. discriminate.
Qed.

(** [int(str(z)) == z]: the rendering can be parsed back. *)
Lemma str_of_int_parse (z : Z) :
  option_map Z.of_int (NilZero.int_of_string (PyStr.str_of_int z)) = Some z.
Proof.
  unfold PyStr.str_of_int. rewrite NilZero.isi.
  - cbn. now rewrite DecimalZ.of_to.
  - destruct z; cbn; try discriminate.
    intros [= H]. now apply (DecimalPos.Unsigned.to_uint_nonnil p).
  - destruct z; cbn; try discriminate.
    intros [= H]. now apply (DecimalPos.Unsigned.to_uint_nonnil p).
Qed.

Lemma str_of_int_inj (z z' : Z) :
  PyStr.str_of_int z = PyStr.str_of_int z' -> z = z'.
Proof.
  intros H. pose proof (str_of_int_parse z) as Hz.
  rewrite H, str_of_int_parse in Hz. congruence.
Qed.

Lemma accepted_extension_no_dot env request file :
  accepted request file ->
  PyStr.contains_dot (extension (allocate env file)) = false.
Proof.
  intros Hacc.
  destruct (accepted_names env _ _ Hacc) as (stem & ext0 & Hcut & _ & _ & ->).
  rewrite lower_contains_dot. now apply (cut_last_dot_spec _ _ _ Hcut).
Qed.

Lemma unique_filename_parts env file :
  unique_filename (allocate env file)
  = ((base_name (allocate env file) ++ String "_" (PyStr.str_of_int (time_time env)))
       ++ "_" ++ unique_id (allocate env file))
      ++ String "." (extension (allocate env file)).
Proof. rewrite allocate_unique_filename, !append_assoc. reflexivity. Qed.

(** X1: two accepted uploads are stored at the same path exactly when
    their sanitized bases, the seconds of their arrival, their tokens and
    their lower case extensions are the same: the four parts can be read
    back from the stored name.  The result images then share a path too,
    and in no other case. *)
Theorem X1_same_path_iff env1 env2 request1 request2 file1 file2 :
  accepted request1 file1 ->
  accepted request2 file2 ->
  let n1 := allocate env1 file1 in
  let n2 := allocate env2 file2 in
  (uploaded_filepath n1 = uploaded_filepath n2 <->
     base_name n1 = base_name n2 /\
     time_time env1 = time_time env2 /\
     unique_id n1 = unique_id n2 /\
     extension n1 = extension n2) /\
  (result_path n1 = result_path n2 <->
     uploaded_filepath n1 = uploaded_filepath n2).
Proof.
  intros Hacc1 Hacc2 n1 n2.
  assert (Hnames : unique_filename n1 = unique_filename n2 <->
            base_name n1 = base_name n2 /\
            time_time env1 = time_time env2 /\
            unique_id n1 = unique_id n2 /\
            extension n1 = extension n2).
  { unfold n1, n2. rewrite !unique_filename_parts. split.
    - intros H.
      apply append_inj_sep in H
        as [H Hext];
        try (apply contains_dot_all_chars;
             eapply accepted_extension_no_dot; eassumption).
      apply append_inj_tail in H as [H Hid].
      2: { rewrite !append_cons, !append_nil. cbn [String.length].
           unfold allocate; cbn [unique_id]. now rewrite !unique_id_length. }
      apply append_inj_sep in H as [Hbase Htime];
        try (apply decimal_no_underscore, str_of_int_decimal).
      apply str_of_int_inj in Htime.
      apply append_inv_head in Hid. auto.
    - intros (-> & -> & -> & ->). reflexivity. }
  assert (Hpaths : uploaded_filepath n1 = uploaded_filepath n2 <->
                   unique_filename n1 = unique_filename n2).
  { unfold n1, n2. rewrite !allocate_uploaded_filepath. split.
    - apply append_inv_head.
    - now intros ->. }
  split.
  - now rewrite Hpaths.
  - rewrite Hpaths. unfold n1, n2.
    rewrite !allocate_result_path, !allocate_result_filename. split.
    + intros H. apply append_inv_head in H. now apply append_inv_head in H.
    + now intros ->.
Qed.

Lemma X1_same_path_iff_witness :
  accepted (Sample.post "My Cat.JPG") (Sample.upload "My Cat.JPG") /\
  accepted (Sample.post "my/cat.jpg") (Sample.upload "my/cat.jpg") /\
  uploaded_filepath (allocate Sample.env (Sample.upload "My Cat.JPG"))
    <> uploaded_filepath (allocate Sample.env (Sample.upload "my/cat.jpg")) /\
  uploaded_filepath (allocate Sample.env (Sample.upload "My Cat.JPG"))
    <> uploaded_filepath
         (allocate Sample2.env_later (Sample.upload "My Cat.JPG")).
Proof.
  assert (H1 : accepted (Sample.post "My Cat.JPG") (Sample.upload "My Cat.JPG"))
    by (split; vm_compute; reflexivity).
  assert (H2 : accepted (Sample.post "my/cat.jpg") (Sample.upload "my/cat.jpg"))
    by (split; vm_compute; reflexivity).
  split; [exact H1 |]. split; [exact H2 |]. split.
  - intros Heq.
    destruct (X1_same_path_iff Sample.env Sample.env _ _ _ _ H1 H2)
      as [[Hparts _] _].
    destruct (Hparts Heq) as (Hbase & _). vm_compute in Hbase. discriminate.
  - intros Heq.
    destruct (X1_same_path_iff Sample.env Sample2.env_later _ _ _ _ H1 H1)
      as [[Hparts _] _].
    destruct (Hparts Heq) as (_ & Htime & _). vm_compute in Htime. discriminate.
Defined.

(** ** The token *)

Lemma hex_digit_hex (d : N) : is_hex_char (PyLib.hex_digit d) = true.
Proof.
  destruct d as [|p]; [reflexivity |].
  do 4 (try destruct p as [p|p|]); reflexivity.
Qed.

Lemma hex_digit_inj (a b : N) :
  (a < 16)%N -> (b < 16)%N ->
  PyLib.hex_digit a = PyLib.hex_digit b -> a = b.
Proof.
  intros Ha Hb H.
  assert (Hval : forall d, (d < 16)%N ->
            (if Nat.ltb (nat_of_ascii (PyLib.hex_digit d)) 97
             then N.of_nat (nat_of_ascii (PyLib.hex_digit d) - 48)
             else N.of_nat (nat_of_ascii (PyLib.hex_digit d) - 87)) = d).
  { intros d Hd. destruct d as [|p]; [reflexivity |].
    do 4 (try destruct p as [p|p|]); try reflexivity; lia. }
  rewrite <- (Hval a Ha), <- (Hval b Hb), H. reflexivity.
Qed.

(** The hexadecimal digit [j + 24] of [n] is the digit [j] of its top
    32 bits. *)
Lemma digit_of_top32 (n j : N) :
  (j < 8)%N ->
  ((n / 2 ^ (4 * (j + 24))) mod 2 ^ 4 = (top32 n / 2 ^ (4 * j)) mod 2 ^ 4)%N.
Proof.
  intros Hj. unfold top32. apply N.bits_inj. intros i.
  destruct (N.ltb_spec i 4) as [Hi | Hi].
  - rewrite !N.mod_pow2_bits_low, !N.div_pow2_bits by lia.
    rewrite N.mod_pow2_bits_low, N.div_pow2_bits by lia.
    f_equal. lia.
  - now rewrite !N.mod_pow2_bits_high by lia.
Qed.

Lemma top32_digits (n m : N) :
  (forall j, (j < 8)%N ->
     ((n / 2 ^ (4 * (j + 24))) mod 2 ^ 4 = (m / 2 ^ (4 * (j + 24))) mod 2 ^ 4)%N)
  <-> top32 n = top32 m.
Proof.
  split.
  - intros H. apply N.bits_inj. intros i.
    destruct (N.ltb_spec i 32) as [Hi | Hi].
    2: { unfold top32. now rewrite !N.mod_pow2_bits_high by lia. }
    assert (Hj : (i / 4 < 8)%N) by (apply N.Div0.div_lt_upper_bound; lia).
    assert (Hr : (i mod 4 < 4)%N) by (apply N.mod_lt; lia).
    pose proof (N.div_mod i 4 ltac:(lia)) as Hi4.
    specialize (H (i / 4)%N Hj). rewrite !digit_of_top32 in H by exact Hj.
    apply (f_equal (fun x => N.testbit x (i mod 4))) in H.
    rewrite !N.mod_pow2_bits_low, !N.div_pow2_bits in H by exact Hr.
    replace (i mod 4 + 4 * (i / 4))%N with i in H by lia. exact H.
  - intros H j Hj. now rewrite !digit_of_top32, H by exact Hj.
Qed.

Lemma nibble_digit (n : N) (k : nat) :
  k < 8 ->
  PyLib.nibble 32 n k
  = PyLib.hex_digit ((n / 2 ^ (4 * (N.of_nat (7 - k) + 24))) mod 2 ^ 4)%N.
Proof.
  intros Hk. unfold PyLib.nibble.
  do 8 (destruct k as [|k]; [reflexivity |]). lia.
Qed.

(** X2: the token is made of eight lower case hexadecimal digits, and two
    UUIDs give the same token exactly when their bits 96 to 127 are the
    same. *)
Theorem X2_token_top_bits (n m : N) :
  String.length (PyStr.take_prefix 8 (PyLib.uuid_str n)) = 8 /\
  all_chars is_hex_char (PyStr.take_prefix 8 (PyLib.uuid_str n)) = true /\
  (PyStr.take_prefix 8 (PyLib.uuid_str n) = PyStr.take_prefix 8 (PyLib.uuid_str m)
   <-> top32 n = top32 m).
Proof.
  split; [apply unique_id_length |]. rewrite !unique_id_digits. split.
  { cbv [List.seq List.map string_of_list_ascii all_chars PyLib.nibble].
    now rewrite !hex_digit_hex. }
  rewrite <- top32_digits.
  cbv [List.seq List.map string_of_list_ascii].
  rewrite !nibble_digit by lia. cbn [Nat.sub N.of_nat Pos.of_succ_nat Pos.succ].
  assert (Hlt : forall x, (x mod 2 ^ 4 < 16)%N)
    by (intros x; apply N.mod_lt; discriminate).
  split.
  - intros H j Hj. injection H as H0 H1 H2 H3 H4 H5 H6 H7.
    repeat match goal with
           | Hd : PyLib.hex_digit _ = PyLib.hex_digit _ |- _ =>
               apply hex_digit_inj in Hd; [| apply Hlt | apply Hlt]
           end.
    assert (Hcases : (j = 0 \/ j = 1 \/ j = 2 \/ j = 3 \/ j = 4 \/ j = 5
                      \/ j = 6 \/ j = 7)%N) by lia.
    destruct Hcases as [-> | [-> | [-> | [-> | [-> | [-> | [-> | ->]]]]]]];
      assumption.
  - intros H.
    rewrite !(H (N.of_nat _)) by lia. reflexivity.
Qed.

(** ** What the extension check looks at *)

Lemma exit_status model env request w resp w' :
  exit_of model env request w resp w' ->
  (turned_down request /\ status_code resp = 400 /\ w' = w) \/
  (exists file, accepted request file /\
     (status_code resp = 200 \/ status_code resp = 500)).
Proof.
  intros [Hfile | file Hfile Hname | file Hfile Hname Hext
         | file resp' w1 Hacc Htry | file e w1 w2 Hacc Htry Hexc].
  - left. unfold turned_down. rewrite Hfile. auto.
  - left. unfold turned_down. rewrite Hfile. auto.
  - left. unfold turned_down. rewrite Hfile. repeat split.
    right. rewrite <- file_extension_after_last_dot, <- mem_In. congruence.
  - right. exists file. split; [exact Hacc |]. left.
    destruct (predict_try_returns _ _ _ _ _ _ _
                (allocate_paths_differ env file) Htry)
      as (r0 & rest & img & enc & _ & _ & _ & _ & _ & _ & ->).
    reflexivity.
  - right. exists file. split; [exact Hacc |]. right. reflexivity.
Qed.

Lemma dotted_name_not_empty (a e : string) : a ++ "." ++ e <> "".
Proof. destruct a; rewrite ?append_nil, ?append_cons; discriminate. Qed.

(** X3: for a file name [a.e] where [e] has no dot, the check depends on
    [e] alone and not on its case: whatever [a] is (other extensions, path
    separators, nothing), the reply is 400 exactly when [e.lower()] is not
    in the allow-list, and then it is the unsupported-type reply and the
    world is unchanged. *)
Theorem X3_last_extension_decides model env request file a e w :
  files request !! "image" = Some file ->
  filename file = a ++ "." ++ e ->
  PyStr.contains_dot e = false ->
  file_extension (filename file) = PyStr.lower e /\
  exists resp w',
    predict (Some model) env request w = (inr resp, w') /\
    (status_code resp = 400
     <-> PyStr.mem (PyStr.lower e) allowed_extensions = false) /\
    (PyStr.mem (PyStr.lower e) allowed_extensions = false ->
     resp = reply_bad_type env /\ w' = w).
Proof.
  intros Hfile Hname Hdot.
  assert (Hext : file_extension (filename file) = PyStr.lower e).
  { rewrite file_extension_after_last_dot, Hname.
    unfold extension_after_last_dot. now rewrite cut_last_dot_app. }
  split; [exact Hext |].
  destruct (predict_exits model env request w) as (resp & w' & Hrun & Hexit).
  exists resp, w'. split; [exact Hrun |].
  destruct (PyStr.mem (PyStr.lower e) allowed_extensions) eqn:Hmem.
  - assert (Hacc : accepted request file)
      by (split; [exact Hfile | now rewrite Hext]).
    destruct (exit_status _ _ _ _ _ _ Hexit) as [[Htd _] | (f & _ & [Hc | Hc])].
    + now destruct (accepted_not_turned_down _ _ Hacc).
    + split; [rewrite Hc; split; discriminate | discriminate].
    + split; [rewrite Hc; split; discriminate | discriminate].
  - assert (Hbad : predict (Some model) env request w
                   = (inr (reply_bad_type env), w)).
    { unfold predict. rewrite Hfile, Hext, Hmem.
      destruct (String.eqb (filename file) "") eqn:Hempty; [| reflexivity].
      apply String.eqb_eq in Hempty. rewrite Hname in Hempty.
      now destruct (dotted_name_not_empty a e). }
    rewrite Hbad in Hrun. injection Hrun as <- <-.
    split; [split; reflexivity | auto].
Qed.

Lemma X3_last_extension_decides_witness :
  files (Sample.post "up/shell.php.JpG") !! "image"
    = Some (Sample.upload "up/shell.php.JpG") /\
  filename (Sample.upload "up/shell.php.JpG") = "up/shell.php" ++ "." ++ "JpG" /\
  PyStr.contains_dot "JpG" = false /\
  file_extension "up/shell.php.JpG" = "jpg" /\
  status_code
    (Sample.reply_of
       (predict (Some Sample.model) Sample.env (Sample.post "up/shell.php.JpG")
          Sample.world)) <> 400.
Proof.
  assert (Hfile : files (Sample.post "up/shell.php.JpG") !! "image"
                  = Some (Sample.upload "up/shell.php.JpG"))
    by (vm_compute; reflexivity).
  assert (Hname : filename (Sample.upload "up/shell.php.JpG")
                  = "up/shell.php" ++ "." ++ "JpG") by reflexivity.
  assert (Hdot : PyStr.contains_dot "JpG" = false) by reflexivity.
  destruct (X3_last_extension_decides Sample.model Sample.env _ _ _ _
              Sample.world Hfile Hname Hdot)
    as (Hext & resp & w' & Hrun & Hiff & _).
  split; [exact Hfile |]. split; [exact Hname |]. split; [exact Hdot |].
  split; [exact Hext |].
  rewrite Hrun. unfold Sample.reply_of. cbn [fst].
  intros Hc. apply Hiff in Hc. vm_compute in Hc. discriminate.
Defined.

(** X4: a non-empty file name without a dot is always turned down as an
    unsupported type, also when the name itself is an allowed extension
    such as [png]; nothing is written and no call is made. *)
Theorem X4_no_dot_rejected model env request file w :
  files request !! "image" = Some file ->
  filename file <> "" ->
  PyStr.contains_dot (filename file) = false ->
  predict (Some model) env request w = (inr (reply_bad_type env), w).
Proof.
  intros Hfile Hname Hdot. unfold predict, file_extension.
  rewrite Hfile, Hdot. apply String.eqb_neq in Hname. now rewrite Hname.
Qed.

Lemma X4_no_dot_rejected_witness :
  files (Sample.post "png") !! "image" = Some (Sample.upload "png") /\
  filename (Sample.upload "png") <> "" /\
  PyStr.contains_dot (filename (Sample.upload "png")) = false /\
  predict (Some Sample.model) Sample.env (Sample.post "png") Sample.world
    = (inr (reply_bad_type Sample.env), Sample.world).
Proof.
  assert (Hfile : files (Sample.post "png") !! "image" = Some (Sample.upload "png"))
    by (vm_compute; reflexivity).
  assert (Hname : filename (Sample.upload "png") <> "") by discriminate.
  assert (Hdot : PyStr.contains_dot (filename (Sample.upload "png")) = false)
    by reflexivity.
  split; [exact Hfile |]. split; [exact Hname |]. split; [exact Hdot |].
  exact (X4_no_dot_rejected Sample.model Sample.env _ _ Sample.world
           Hfile Hname Hdot).
Defined.

(** ** Where the files go *)

Lemma lstrip_head p (s : string) (c : ascii) (r : string) :
  Werkzeug.lstrip p s = String c r -> p c = false.
Proof.
  induction s as [|x s IH]; simpl; [discriminate |].
  destruct (p x) eqn:Hx; [exact IH |].
  intros [= <- _]. exact Hx.
Qed.

Lemma rstrip_head p (s : string) (c : ascii) (r : string) :
  Werkzeug.rstrip p s = String c r -> exists r', s = String c r'.
Proof.
  destruct s as [|x s]; simpl; [discriminate |].
  destruct (Werkzeug.rstrip p s); [destruct (p x) |]; intros [= <- _]; eauto.
Qed.

Lemma secure_filename_head (s : string) (c : ascii) (r : string) :
  Werkzeug.secure_filename s = String c r ->
  Werkzeug.dot_or_underscore c = false.
Proof.
  unfold Werkzeug.secure_filename, Werkzeug.strip. intros H.
  apply rstrip_head in H as [r' H]. now apply lstrip_head in H.
Qed.

(** X5: whatever file name the client sent, an accepted upload is written
    directly inside [static/uploads] and its result directly inside
    [static/results]: the two file names hold only characters of
    [A-Za-z0-9_.-], hence no path separator, and the upload's name does not
    start with a dot. *)
Theorem X5_paths_confined env request file :
  accepted request file ->
  let n := allocate env file in
  uploaded_filepath n = "static/uploads/" ++ unique_filename n /\
  result_path n = "static/results/" ++ result_filename n /\
  all_chars Werkzeug.is_safe (unique_filename n) = true /\
  all_chars Werkzeug.is_safe (result_filename n) = true /\
  all_chars (fun c => negb (Ascii.eqb c "/")) (unique_filename n) = true /\
  all_chars (fun c => negb (Ascii.eqb c "/")) (result_filename n) = true /\
  forall r, unique_filename n <> String "." r.
Proof.
  intros Hacc n. unfold n.
  destruct (unique_filename_chars env _ _ Hacc) as [Hu Hr].
  assert (Hsep : forall s, all_chars Werkzeug.is_safe s = true ->
            all_chars (fun c => negb (Ascii.eqb c "/")) s = true).
  { intros s. apply all_chars_weaken. intros c Hc.
    now rewrite (safe_not_sep c Hc). }
  split; [apply allocate_uploaded_filepath |].
  split; [apply allocate_result_path |].
  split; [exact Hu |]. split; [exact Hr |].
  split; [now apply Hsep |]. split; [now apply Hsep |].
  intros r. rewrite allocate_unique_filename.
  destruct (base_name (allocate env file)) as [|c b] eqn:Hbase.
  - rewrite append_nil, append_cons. discriminate.
  - rewrite append_cons. intros [= -> _].
    unfold allocate in Hbase; cbn [base_name] in Hbase.
    apply secure_filename_head in Hbase. discriminate.
Qed.

Lemma X5_paths_confined_witness :
  accepted (Sample.post "../../etc/.passwd.png")
    (Sample.upload "../../etc/.passwd.png") /\
  uploaded_filepath (allocate Sample.env (Sample.upload "../../etc/.passwd.png"))
    = "static/uploads/etc_.passwd_1700000000_3f2a9c1d.png" /\
  all_chars (fun c => negb (Ascii.eqb c "/"))
    (unique_filename (allocate Sample.env (Sample.upload "../../etc/.passwd.png")))
    = true.
Proof.
  assert (Hacc : accepted (Sample.post "../../etc/.passwd.png")
                   (Sample.upload "../../etc/.passwd.png"))
    by (split; vm_compute; reflexivity).
  destruct (X5_paths_confined Sample.env _ _ Hacc)
    as (Hup & _ & _ & _ & Hsep & _).
  split; [exact Hacc |]. split; [rewrite Hup; reflexivity | exact Hsep].
Defined.

(** ** The files a request leaves alone *)

Lemma predict_try_frame env model file n w r w1 (p : string) :
  predict_try env model file n w = (r, w1) ->
  p <> uploaded_filepath n -> p <> result_path n ->
  fs w1 !! p = fs w !! p.
Proof.
  intros H Hup Hres. step_calls.
  destruct (save_outcome env) as [[e0 left]|] eqn:Hsave.
  { destruct left; cbn in H; injection H as _ <-; cbn;
      rewrite ?lookup_insert_ne by congruence; reflexivity. }
  cbn [fs log] in H.
  destruct (run model _ _) as [e1|[|r0 rest]] eqn:Hrun; cbn in H.
  1,2: injection H as _ <-; cbn; now rewrite lookup_insert_ne by congruence.
  destruct (plot r0) as [e2|img] eqn:Hplot; cbn in H.
  { injection H as _ <-. cbn. now rewrite lookup_insert_ne by congruence. }
  destruct (image_save_outcome env img (result_path n))
    as [[e3 left]|enc] eqn:Himg; cbn in H.
  { destruct left; cbn in H; injection H as _ <-; cbn;
      rewrite ?lookup_insert_ne by congruence; reflexivity. }
  destruct (_ !! uploaded_filepath n); cbn in H; injection H as _ <-; cbn;
    now rewrite !lookup_insert_ne by congruence.
Qed.

Lemma predict_except_frame env n e w1 r w' (p : string) :
  predict_except env n e w1 = (r, w') ->
  p <> uploaded_filepath n ->
  fs w' !! p = fs w1 !! p.
Proof.
  intros H Hup.
  destruct (predict_except_runs env n e w1) as (w2 & Hrun & Habsent & Hpresent).
  rewrite Hrun in H. injection H as _ <-.
  destruct (fs w1 !! uploaded_filepath n) as [data|] eqn:Hdisk.
  - destruct Hpresent as [_ Hfs]; [eauto |]. rewrite Hfs.
    destruct (remove_outcome env); [reflexivity |].
    now rewrite lookup_delete_ne by congruence.
  - now rewrite (Habsent eq_refl).
Qed.

(** One request changes no file but the two it allocates. *)
Lemma predict_frame model env request w r w' (p : string) :
  predict model env request w = (r, w') ->
  (forall file, accepted request file ->
     p <> uploaded_filepath (allocate env file) /\
     p <> result_path (allocate env file)) ->
  fs w' !! p = fs w !! p.
Proof.
  intros Hrun Hp. destruct model as [model|].
  2: { cbn in Hrun. now injection Hrun as _ <-. }
  destruct (predict_exits model env request w) as (resp & w2 & Hrun2 & Hexit).
  rewrite Hrun in Hrun2. injection Hrun2 as -> ->.
  destruct Hexit as [Hfile | file Hfile Hname | file Hfile Hname Hext
                    | file resp w' Hacc Htry | file e w1 w' Hacc Htry Hexc];
    try reflexivity.
  - destruct (Hp file Hacc) as [Hup Hres].
    now apply (predict_try_frame _ _ _ _ _ _ _ _ Htry).
  - destruct (Hp file Hacc) as [Hup Hres].
    rewrite (predict_except_frame _ _ _ _ _ _ _ Hexc Hup).
    now apply (predict_try_frame _ _ _ _ _ _ _ _ Htry).
Qed.

Lemma prefix_append (a b : string) : String.prefix a (a ++ b) = true.
Proof.
  induction a as [|x a IH]; [now destruct b |].
  rewrite append_cons. cbn. destruct (ascii_dec x x); [exact IH | congruence].
Qed.

(** X6: over any sequence of calls, with or without a model, a path that
    is neither under [static/uploads/] nor under [static/results/] is never
    created, written or removed. *)
Theorem X6_outside_folders_untouched model (calls : list Call) (w : World)
    (p : string) :
  String.prefix "static/uploads/" p = false ->
  String.prefix "static/results/" p = false ->
  fs (snd (serve model calls w)) !! p = fs w !! p.
Proof.
  intros Hup Hres. revert w.
  induction calls as [|c rest IH]; intros w; [reflexivity |].
  cbn [serve].
  destruct (dispatch model c w) as [r w1] eqn:Hc.
  specialize (IH w1). destruct (serve model rest w1) as [rs w2].
  cbn [snd] in *. rewrite IH.
  destruct c as [env request|]; cbn [dispatch] in Hc.
  - apply (predict_frame _ _ _ _ _ _ _ Hc). intros file Hacc. split.
    + intros ->. rewrite allocate_uploaded_filepath, prefix_append in Hup.
      discriminate.
    + intros ->. rewrite allocate_result_path, prefix_append in Hres.
      discriminate.
  - now injection Hc as _ <-.
Qed.

Lemma X6_outside_folders_untouched_witness :
  let w := Sample2.world_with "models/best.pt" in
  let calls := [PostPredict Sample.env (Sample.post "../../models/best.pt.png");
                GetHealth;
                PostPredict Sample.env_disk_full (Sample.post "cat.jpg")] in
  fs (snd (serve (Some Sample.model) calls w)) !! "models/best.pt"
    = Some [Byte.x2a].
Proof.
  cbv zeta.
  rewrite (X6_outside_folders_untouched (Some Sample.model) _
             (Sample2.world_with "models/best.pt") "models/best.pt");
    reflexivity.
Defined.

(** X7: a file under one of the two folders stays as it is over any
    sequence of calls in which no accepted upload is given its path as
    upload path or result path: nothing is ever cleaned up or rewritten
    except under a path allocated anew. *)
Theorem X7_stored_files_kept model (calls : list Call) (w : World)
    (p : string) :
  (forall env request file,
     In (PostPredict env request) calls ->
     accepted request file ->
     p <> uploaded_filepath (allocate env file) /\
     p <> result_path (allocate env file)) ->
  fs (snd (serve model calls w)) !! p = fs w !! p.
Proof.
  revert w. induction calls as [|c rest IH]; intros w Hp; [reflexivity |].
  cbn [serve].
  destruct (dispatch model c w) as [r w1] eqn:Hc.
  assert (Hrest : fs (snd (serve model rest w1)) !! p = fs w1 !! p).
  { apply IH. intros env request file Hin. apply Hp. now right. }
  destruct (serve model rest w1) as [rs w2]. cbn [snd] in *. rewrite Hrest.
  destruct c as [env request|]; cbn [dispatch] in Hc.
  - apply (predict_frame _ _ _ _ _ _ _ Hc). intros file Hacc.
    apply (Hp env request file); [now left | exact Hacc].
  - now injection Hc as _ <-.
Qed.

Lemma X7_stored_files_kept_witness :
  let p := "static/uploads/cat_1600000000_0badcafe.jpg" in
  let calls := [PostPredict Sample.env (Sample.post "cat.jpg"); GetHealth] in
  (forall env request file,
     In (PostPredict env request) calls ->
     accepted request file ->
     p <> uploaded_filepath (allocate env file) /\
     p <> result_path (allocate env file)) /\
  fs (snd (serve (Some Sample.model) calls (Sample2.world_with p))) !! p
    = Some [Byte.x2a].
Proof.
  cbv zeta.
  assert (Hp : forall env request file,
            In (PostPredict env request)
              [PostPredict Sample.env (Sample.post "cat.jpg"); GetHealth] ->
            accepted request file ->
            "static/uploads/cat_1600000000_0badcafe.jpg"
              <> uploaded_filepath (allocate env file) /\
            "static/uploads/cat_1600000000_0badcafe.jpg"
              <> result_path (allocate env file)).
  { intros env request file [[= <- <-] | [[=] | []]] [Hfile _].
    vm_compute in Hfile. injection Hfile as <-.
    split; vm_compute; discriminate. }
  split; [exact Hp |].
  rewrite (X7_stored_files_kept (Some Sample.model) _
             (Sample2.world_with "static/uploads/cat_1600000000_0badcafe.jpg")
             _ Hp).
  reflexivity.
Defined.

(** ** When the model is called *)

Lemma model_calls_app (l k : list Event) :
  model_calls (l ++ k) = model_calls l + model_calls k.
Proof. unfold model_calls. now rewrite List.filter_app, List.length_app. Qed.

(** The calls of the block, by what [file.save] did. *)
Lemma predict_try_log_save env model file n w r w1 :
  predict_try env model file n w = (r, w1) ->
  exists k,
    log w1 = (log w ++ List.firstn k (full_log n))%list /\
    k <= 4 /\
    (save_outcome env = None -> 2 <= k) /\
    (save_outcome env <> None -> k = 1).
Proof.
  intros H. step_calls. unfold full_log.
  destruct (save_outcome env) as [[e0 left]|] eqn:Hsave.
  { exists 1. destruct left; cbn in H; injection H as _ <-; cbn;
      repeat split; auto; discriminate. }
  cbn [fs log] in H.
  destruct (run model _ _) as [e1|[|r0 rest]] eqn:Hrun; cbn in H.
  1,2: exists 2; injection H as _ <-; cbn; rewrite <- app_assoc;
       repeat split; auto; congruence.
  destruct (plot r0) as [e2|img] eqn:Hplot; cbn in H.
  { exists 3. injection H as _ <-. cbn. rewrite <- !app_assoc.
    repeat split; auto; congruence. }
  destruct (image_save_outcome env img (result_path n))
    as [[e3 left]|enc] eqn:Himg; cbn in H.
  { exists 4. destruct left; cbn in H; injection H as _ <-; cbn;
      rewrite <- !app_assoc; repeat split; auto; congruence. }
  exists 4.
  destruct (_ !! uploaded_filepath n); cbn in H; injection H as _ <-; cbn;
    rewrite <- !app_assoc; repeat split; auto; congruence.
Qed.

Lemma model_calls_firstn (n : Names) (k : nat) :
  k <= 4 ->
  model_calls (List.firstn k (full_log n)) = if Nat.leb 2 k then 1 else 0.
Proof.
  intros Hk. unfold full_log.
  do 5 (destruct k as [|k]; [reflexivity |]). lia.
Qed.

(** X8: during one [POST /predict] the model is called at most once, and
    it is called exactly when the upload was accepted and [file.save]
    returned; a turned down request, or one whose upload could not be
    saved, never reaches the model. *)
Theorem X8_model_called_iff model env request w resp w' :
  predict (Some model) env request w = (inr resp, w') ->
  exists evs,
    log w' = (log w ++ evs)%list /\
    model_calls evs <= 1 /\
    (model_calls evs = 1
     <-> (exists file, accepted request file) /\ save_outcome env = None).
Proof.
  intros Hrun. apply predict_exit_inv in Hrun.
  assert (Hquiet : turned_down request ->
            exists evs, log w = (log w ++ evs)%list /\
              model_calls evs <= 1 /\
              (model_calls evs = 1
               <-> (exists file, accepted request file)
                   /\ save_outcome env = None)).
  { intros Htd. exists []. rewrite app_nil_r. split; [reflexivity |].
    split; [cbn; lia |]. split; [discriminate |].
    intros [[file Hacc] _].
    now destruct (accepted_not_turned_down _ _ Hacc). }
  assert (Hblock : forall file r w1 tail,
            accepted request file ->
            predict_try env model file (allocate env file) w = (r, w1) ->
            model_calls tail = 0 ->
            exists evs, (log w1 ++ tail = log w ++ evs)%list /\
              model_calls evs <= 1 /\
              (model_calls evs = 1
               <-> (exists file, accepted request file)
                   /\ save_outcome env = None)).
  { intros file r w1 tail Hacc Htry Htail.
    destruct (predict_try_log_save _ _ _ _ _ _ _ Htry)
      as (k & Hlog & Hk & Hok & Hbad).
    exists (List.firstn k (full_log (allocate env file)) ++ tail)%list.
    rewrite Hlog, <- app_assoc. split; [reflexivity |].
    rewrite model_calls_app, Htail, model_calls_firstn by exact Hk.
    destruct (save_outcome env) as [f|] eqn:Hsave.
    - rewrite (Hbad ltac:(discriminate)). cbn. split; [lia |].
      split; [discriminate | intros [_ [=]]].
    - specialize (Hok eq_refl).
      destruct (Nat.leb_spec 2 k); [| lia]. cbn. split; [lia |].
      split; [eauto | reflexivity]. }
  destruct Hrun as [Hfile | file Hfile Hname | file Hfile Hname Hext
                   | file resp w' Hacc Htry | file e w1 w' Hacc Htry Hexc].
  - apply Hquiet. unfold turned_down. now rewrite Hfile.
  - apply Hquiet. unfold turned_down. rewrite Hfile. auto.
  - apply Hquiet. unfold turned_down. rewrite Hfile. right.
    rewrite <- file_extension_after_last_dot, <- mem_In. congruence.
  - destruct (Hblock file _ _ [] Hacc Htry eq_refl) as (evs & Hlog & H).
    rewrite app_nil_r in Hlog. eauto.
  - destruct (predict_except_runs env (allocate env file) e w1)
      as (w2 & Hrun2 & Habsent & Hpresent).
    rewrite Hexc in Hrun2. injection Hrun2 as <-.
    destruct (fs w1 !! uploaded_filepath (allocate env file)) as [data|] eqn:Hdisk.
    + destruct Hpresent as [Hlog2 _]; [eauto |]. rewrite Hlog2.
      now apply (Hblock file _ _ _ Hacc Htry).
    + rewrite (Habsent eq_refl).
      destruct (Hblock file _ _ [] Hacc Htry eq_refl) as (evs & Hlog & H).
      rewrite app_nil_r in Hlog. eauto.
Qed.

Lemma X8_model_called_iff_witness :
  let run := predict (Some Sample.model) Sample2.env_save_denied
               (Sample.post "cat.jpg") Sample.world in
  run = (inr (Sample.reply_of run), snd run) /\
  status_code (Sample.reply_of run) = 500 /\
  model_calls (log (snd run)) = 0.
Proof.
  cbv zeta.
  assert (Hrun : predict (Some Sample.model) Sample2.env_save_denied
                   (Sample.post "cat.jpg") Sample.world
                 = (inr (Sample.reply_of
                           (predict (Some Sample.model) Sample2.env_save_denied
                              (Sample.post "cat.jpg") Sample.world)),
                    snd (predict (Some Sample.model) Sample2.env_save_denied
                           (Sample.post "cat.jpg") Sample.world)))
    by (vm_compute; reflexivity).
  split; [exact Hrun |]. split; [vm_compute; reflexivity |].
  destruct (X8_model_called_iff _ _ _ _ _ _ Hrun) as (evs & Hlog & Hle & Hiff).
  rewrite Hlog. cbn [Sample.world log app].
  destruct (model_calls evs) as [|[|k]] eqn:Hn; [reflexivity | | lia].
  destruct (proj1 Hiff eq_refl) as [_ Hsave]. discriminate Hsave.
Defined.

(** ** What is left on disk *)

Lemma accepted_exit model env request file w resp w' :
  accepted request file ->
  exit_of model env request w resp w' ->
  predict_try env model file (allocate env file) w = (inr resp, w') \/
  exists e w1,
    resp = reply_failed e /\
    predict_try env model file (allocate env file) w = (inl e, w1) /\
    predict_except env (allocate env file) e w1 = (inr (reply_failed e), w').
Proof.
  intros Hacc Hexit.
  pose proof (accepted_not_turned_down _ _ Hacc) as Hntd.
  assert (Hsame : forall file', accepted request file' -> file' = file).
  { intros file' [Hf' _]. destruct Hacc as [Hf _]. congruence. }
  destruct Hexit as [Hfile | file' Hfile Hname | file' Hfile Hname Hext
                    | file' resp w' Hacc' Htry | file' e w1 w' Hacc' Htry Hexc].
  - destruct Hntd. unfold turned_down. now rewrite Hfile.
  - destruct Hntd. unfold turned_down. rewrite Hfile. auto.
  - destruct Hntd. unfold turned_down. rewrite Hfile. right.
    rewrite <- file_extension_after_last_dot, <- mem_In. congruence.
  - rewrite (Hsame _ Hacc') in Htry. auto.
  - rewrite (Hsame _ Hacc') in Htry, Hexc. right. eauto.
Qed.

(** X9: after an accepted request during which [os.remove] does not fail,
    the upload path holds the bytes of the upload when the reply is 200 and
    holds nothing otherwise, whatever was stored under that path before
    the request. *)
Theorem X9_upload_kept_iff_success model env request file w resp w' :
  accepted request file ->
  remove_outcome env = None ->
  predict (Some model) env request w = (inr resp, w') ->
  fs w' !! uploaded_filepath (allocate env file)
  = if Nat.eqb (status_code resp) 200 then Some (stream file) else None.
Proof.
  intros Hacc Hrm Hrun. apply predict_exit_inv in Hrun.
  pose proof (allocate_paths_differ env file) as Hne.
  destruct (accepted_exit _ _ _ _ _ _ _ Hacc Hrun)
    as [Htry | (e & w1 & -> & Htry & Hexc)].
  - destruct (predict_try_returns _ _ _ _ _ _ _ Hne Htry)
      as (r0 & rest & img & enc & _ & _ & _ & _ & Hfs & _ & ->).
    change (Nat.eqb (status_code (jsonify ?b)) 200) with true. cbv iota.
    rewrite Hfs. unfold saved.
    rewrite lookup_insert_ne by congruence. apply lookup_insert_eq.
  - change (Nat.eqb (status_code (reply_failed e)) 200) with false. cbv iota.
    destruct (predict_except_runs env (allocate env file) e w1)
      as (w2 & Hrun2 & Habsent & Hpresent).
    rewrite Hexc in Hrun2. injection Hrun2 as <-.
    destruct (fs w1 !! uploaded_filepath (allocate env file)) as [data|] eqn:Hdisk.
    + destruct Hpresent as [_ Hfs]; [eauto |].
      rewrite Hfs, Hrm. apply lookup_delete_eq.
    + now rewrite (Habsent eq_refl).
Qed.

Lemma X9_upload_kept_iff_success_witness :
  let p := "static/uploads/cat_1700000000_3f2a9c1d.jpg" in
  let run := predict (Some Sample.model) Sample2.env_save_denied
               (Sample.post "cat.jpg") (Sample2.world_with p) in
  accepted (Sample.post "cat.jpg") (Sample.upload "cat.jpg") /\
  remove_outcome Sample2.env_save_denied = None /\
  run = (inr (Sample.reply_of run), snd run) /\
  fs (Sample2.world_with p) !! p = Some [Byte.x2a] /\
  fs (snd run) !! p = None.
Proof.
  cbv zeta.
  assert (Hacc : accepted (Sample.post "cat.jpg") (Sample.upload "cat.jpg"))
    by (split; vm_compute; reflexivity).
  assert (Hrun : predict (Some Sample.model) Sample2.env_save_denied
                   (Sample.post "cat.jpg")
                   (Sample2.world_with "static/uploads/cat_1700000000_3f2a9c1d.jpg")
                 = (inr (Sample.reply_of
                           (predict (Some Sample.model) Sample2.env_save_denied
                              (Sample.post "cat.jpg")
                              (Sample2.world_with
                                 "static/uploads/cat_1700000000_3f2a9c1d.jpg"))),
                    snd (predict (Some Sample.model) Sample2.env_save_denied
                           (Sample.post "cat.jpg")
                           (Sample2.world_with
                              "static/uploads/cat_1700000000_3f2a9c1d.jpg"))))
    by (vm_compute; reflexivity).
  split; [exact Hacc |]. split; [reflexivity |]. split; [exact Hrun |].
  split; [reflexivity |].
  exact (X9_upload_kept_iff_success Sample.model Sample2.env_save_denied
           _ _ _ _ _ Hacc (eq_refl : remove_outcome Sample2.env_save_denied = None)
           Hrun).
Defined.

(** ** The numbers of the success reply *)

(** X10: in a reply with status 200, [total_detections] is the number of
    boxes of the model's first result (0 when it has none) and [file_size]
    is the number of bytes the client uploaded. *)
Theorem X10_success_numbers model env request w resp w' :
  predict (Some model) env request w = (inr resp, w') ->
  status_code resp = 200 ->
  exists file r0 rest,
    files request !! "image" = Some file /\
    run model (saved file (allocate env file) (fs w))
      (inference_args (uploaded_filepath (allocate env file)))
      = inr (r0 :: rest) /\
    field "total_detections" (body resp)
      = Some (JInt (Z.of_nat match boxes r0 with
                             | Some bs => length bs
                             | None => 0
                             end)) /\
    field "file_size" (body resp)
      = Some (JInt (Z.of_nat (length (stream file)))).
Proof.
  intros Hrun Hcode. apply predict_exit_inv in Hrun.
  destruct (reply_codes _ _ _ _ _ _ Hrun Hcode) as (file & Hacc & Htry).
  destruct (predict_try_returns _ _ _ _ _ _ _
              (allocate_paths_differ env file) Htry)
    as (r0 & rest & img & enc & _ & Hmodel & _ & _ & _ & _ & ->).
  exists file, r0, rest. split; [apply Hacc |]. split; [exact Hmodel |].
  unfold jsonify. cbn [body field String.eqb Ascii.eqb Bool.eqb].
  rewrite total_detections_count. split; reflexivity.
Qed.

Lemma X10_success_numbers_witness :
  let run := predict (Some Sample.model) Sample.env (Sample.post "cat.jpg")
               Sample.world in
  run = (inr (Sample.reply_of run), snd run) /\
  status_code (Sample.reply_of run) = 200 /\
  field "total_detections" (body (Sample.reply_of run)) = Some (JInt 3) /\
  field "file_size" (body (Sample.reply_of run)) = Some (JInt 3).
Proof.
  cbv zeta.
  assert (Hrun : predict (Some Sample.model) Sample.env (Sample.post "cat.jpg")
                   Sample.world
                 = (inr (Sample.reply_of
                           (predict (Some Sample.model) Sample.env
                              (Sample.post "cat.jpg") Sample.world)),
                    snd (predict (Some Sample.model) Sample.env
                           (Sample.post "cat.jpg") Sample.world)))
    by (vm_compute; reflexivity).
  assert (Hcode : status_code
                    (Sample.reply_of
                       (predict (Some Sample.model) Sample.env
                          (Sample.post "cat.jpg") Sample.world)) = 200)
    by (vm_compute; reflexivity).
  destruct (X10_success_numbers _ _ _ _ _ _ Hrun Hcode)
    as (file & r0 & rest & Hfile & Hmodel & Htotal & Hsize).
  split; [exact Hrun |]. split; [exact Hcode |].
  assert (file = Sample.upload "cat.jpg") as ->
    by (vm_compute in Hfile; injection Hfile as <-; reflexivity).
  split; [| exact Hsize].
  rewrite Htotal. vm_compute in Hmodel. injection Hmodel as <- _. reflexivity.
Defined.

(** ** The mapping of counts *)

Lemma detections_named_perm class_names name (bs bs' : list Box) :
  Permutation bs bs' ->
  detections_named class_names name bs = detections_named class_names name bs'.
Proof.
  intros Hp. unfold detections_named. induction Hp; cbn.
  - reflexivity.
  - destruct (String.eqb _ _); cbn; now rewrite IHHp.
  - repeat destruct (String.eqb _ _); reflexivity.
  - now rewrite IHHp1.
Qed.

Lemma detections_named_pos class_names name (bs : list Box) :
  0 < detections_named class_names name bs
  <-> In name (resolved_names class_names bs).
Proof.
  unfold detections_named, resolved_names.
  induction bs as [|b bs IH]; cbn; [split; [lia | tauto] |].
  destruct (String.eqb (class_name_of class_names (cls_0 b)) name) eqn:E.
  - apply String.eqb_eq in E. cbn. split; [auto | lia].
  - apply String.eqb_neq in E. rewrite IH. split; [auto |].
    intros [H | H]; [contradiction | exact H].
Qed.

Lemma count_detections_lookup class_names (detections : option (list Box))
    (name : string) :
  count_detections class_names detections !! name
  = match detections with
    | Some bs =>
        match detections_named class_names name bs with
        | 0 => None
        | k => Some k
        end
    | None => None
    end.
Proof.
  unfold count_detections. destruct detections as [[|b bs]|].
  - reflexivity.
  - change (Nat.ltb 0 (length (b :: bs))) with true. cbv iota.
    rewrite fold_count_lookup, lookup_empty.
    now destruct (detections_named class_names name (b :: bs)).
  - reflexivity.
Qed.

(** X11: the mapping of counts does not depend on the order in which the
    model lists its boxes. *)
Theorem X11_counts_order_free class_names (bs bs' : list Box) :
  Permutation bs bs' ->
  count_detections class_names (Some bs) = count_detections class_names (Some bs').
Proof.
  intros Hp. apply map_eq. intros name.
  rewrite !count_detections_lookup.
  now rewrite (detections_named_perm class_names name bs bs' Hp).
Qed.

Lemma X11_counts_order_free_witness :
  Permutation [ {| cls_0 := 0 |}; {| cls_0 := 7 |}; {| cls_0 := 0 |} ]
              [ {| cls_0 := 7 |}; {| cls_0 := 0 |}; {| cls_0 := 0 |} ] /\
  count_detections (names Sample.model)
    (Some [ {| cls_0 := 0 |}; {| cls_0 := 7 |}; {| cls_0 := 0 |} ])
  = count_detections (names Sample.model)
      (Some [ {| cls_0 := 7 |}; {| cls_0 := 0 |}; {| cls_0 := 0 |} ]).
Proof.
  assert (Hp : Permutation
                 [ {| cls_0 := 0 |}; {| cls_0 := 7 |}; {| cls_0 := 0 |} ]
                 [ {| cls_0 := 7 |}; {| cls_0 := 0 |}; {| cls_0 := 0 |} ])
    by apply perm_swap.
  split; [exact Hp |].
  exact (X11_counts_order_free (names Sample.model) _ _ Hp).
Defined.

(** X12: the keys of the mapping are exactly the class names the boxes
    resolve to, every count is at least 1, and there are no more keys than
    boxes. *)
Theorem X12_counts_keys class_names (bs : list Box) (name : string) :
  (is_Some (count_detections class_names (Some bs) !! name)
   <-> In name (resolved_names class_names bs)) /\
  (forall k, count_detections class_names (Some bs) !! name = Some k ->
     1 <= k <= length bs) /\
  size (count_detections class_names (Some bs)) <= length bs.
Proof.
  split; [| split].
  - rewrite count_detections_lookup, <- detections_named_pos.
    destruct (detections_named class_names name bs).
    + split; [intros [? ?]; discriminate | lia].
    + split; [lia | eauto].
  - intros k. rewrite count_detections_lookup.
    pose proof (List.filter_length_le
                  (fun b => String.eqb (class_name_of class_names (cls_0 b)) name)
                  bs) as Hle.
    fold (detections_named class_names name bs) in Hle.
    destruct (detections_named class_names name bs); [discriminate |].
    intros [= <-]. lia.
  - unfold count_detections.
    destruct bs as [|b bs].
    { change (size (∅ : gmap string nat) <= 0). now rewrite map_size_empty. }
    change (Nat.ltb 0 (length (b :: bs))) with true. cbv iota.
    assert (Hgen : forall l (acc : gmap string nat),
              size (List.fold_left (count_box class_names) l acc)
              <= size acc + length l).
    { induction l as [|x l IH]; intros acc; cbn; [lia |].
      etransitivity; [apply IH |].
      unfold count_box.
      destruct (acc !! class_name_of class_names (cls_0 x)) as [v|] eqn:Hk.
      - rewrite map_size_insert_Some by eauto. lia.
      - rewrite map_size_insert_None by exact Hk. lia. }
    specialize (Hgen (b :: bs) ∅). rewrite map_size_empty in Hgen. exact Hgen.
Qed.

(** ** Reading a reply *)

(** X13: in every reply of [predict] the [status] entry tells the HTTP
    status: it is ["success"] exactly for status 200 and ["error"] exactly
    for the others, and the body has an [error] entry exactly when the
    status is not 200. *)
Theorem X13_status_entry (model : option YOLO) env request w :
  exists resp w',
    predict model env request w = (inr resp, w') /\
    (field "status" (body resp) = Some (JStr "success")
     <-> status_code resp = 200) /\
    (field "status" (body resp) = Some (JStr "error")
     <-> status_code resp <> 200) /\
    (field "error" (body resp) = None <-> status_code resp = 200).
Proof.
  assert (Herr : forall msg code,
            code <> 200 ->
            let resp := with_status (jsonify (error_body msg)) code in
            (field "status" (body resp) = Some (JStr "success")
             <-> status_code resp = 200) /\
            (field "status" (body resp) = Some (JStr "error")
             <-> status_code resp <> 200) /\
            (field "error" (body resp) = None <-> status_code resp = 200)).
  { intros msg code Hcode. cbn.
    repeat split; intros; try discriminate; try contradiction; auto. }
  destruct model as [model|].
  2: { exists reply_no_model, w. split; [reflexivity |].
       apply Herr. discriminate. }
  destruct (predict_exits model env request w) as (resp & w' & Hrun & Hexit).
  exists resp, w'. split; [exact Hrun |].
  destruct Hexit as [Hfile | file Hfile Hname | file Hfile Hname Hext
                    | file resp w' Hacc Htry | file e w1 w' Hacc Htry Hexc];
    try (apply Herr; discriminate).
  destruct (predict_try_returns _ _ _ _ _ _ _
              (allocate_paths_differ env file) Htry)
    as (r0 & rest & img & enc & _ & _ & _ & _ & _ & _ & ->).
  unfold jsonify. cbn [body status_code field String.eqb Ascii.eqb Bool.eqb].
  repeat split; intros; try discriminate; try contradiction; auto.
Qed.

(** ** Health and predict together *)

(** X14: [GET /health] reports [model_loaded: false] exactly when
    [POST /predict] answers with the model-not-loaded reply; with a model
    loaded no request gets that reply. *)
Theorem X14_health_agrees (model : option YOLO) env request w :
  fst (predict model env request w) = inr reply_no_model
  <-> field "model_loaded" (body (health_check model)) = Some (JBool false).
Proof.
  destruct model as [model|]; cbn [health_check is_not_None jsonify body field
                                   String.eqb Ascii.eqb Bool.eqb].
  2: { split; reflexivity. }
  split; [| discriminate].
  destruct (predict_exits model env request w) as (resp & w' & Hrun & Hexit).
  rewrite Hrun. cbn [fst]. intros [= ->]. exfalso.
  remember reply_no_model as r eqn:Hr.
  destruct Hexit as [Hfile | file Hfile Hname | file Hfile Hname Hext
                    | file resp w' Hacc Htry | file e w1 w' Hacc Htry Hexc];
    try discriminate Hr.
  destruct (predict_try_returns _ _ _ _ _ _ _
              (allocate_paths_differ env file) Htry)
    as (r0 & rest & img & enc & _ & _ & _ & _ & _ & _ & ->).
  discriminate Hr.
Qed.

(** ** The timestamp *)

(** X15: the timestamp given to an upload is a decimal numeral (digits,
    after a sign for a time before the epoch) and parses back to the second
    it was taken at. *)
Theorem X15_timestamp_parses env file :
  all_chars is_decimal_char (timestamp (allocate env file)) = true /\
  option_map Z.of_int (NilZero.int_of_string (timestamp (allocate env file)))
  = Some (time_time env).
Proof.
  change (timestamp (allocate env file)) with (PyStr.str_of_int (time_time env)).
  split; [apply str_of_int_decimal | apply str_of_int_parse].
Qed.

(** ** Two uploads in a row *)

Lemma result_paths_differ env1 env2 file1 file2 :
  uploaded_filepath (allocate env1 file1) <> uploaded_filepath (allocate env2 file2) ->
  result_path (allocate env1 file1) <> result_path (allocate env2 file2).
Proof.
  intros Hne Heq. apply Hne.
  rewrite !allocate_result_path, !allocate_result_filename in Heq.
  apply append_inv_head in Heq. apply append_inv_head in Heq.
  now rewrite !allocate_uploaded_filepath, Heq.
Qed.

Lemma upload_is_no_result env1 env2 file1 file2 :
  uploaded_filepath (allocate env1 file1) <> result_path (allocate env2 file2).
Proof.
  rewrite allocate_uploaded_filepath, allocate_result_path.
  apply upload_result_paths_differ.
Qed.

(** X16: when two accepted uploads that are given different paths are
    served one after the other and the first reply is 200, the first
    upload and its result image are still on disk after the second request,
    whatever happened to the second; if the second reply is 200 too, its
    upload and result image are on disk beside them. *)
Theorem X16_two_uploads model env1 env2 request1 request2 file1 file2 w r1 r2 w' :
  accepted request1 file1 ->
  accepted request2 file2 ->
  uploaded_filepath (allocate env1 file1) <> uploaded_filepath (allocate env2 file2) ->
  serve (Some model) [PostPredict env1 request1; PostPredict env2 request2] w
    = ([inr r1; inr r2], w') ->
  status_code r1 = 200 ->
  fs w' !! uploaded_filepath (allocate env1 file1) = Some (stream file1) /\
  is_Some (fs w' !! result_path (allocate env1 file1)) /\
  (status_code r2 = 200 ->
   fs w' !! uploaded_filepath (allocate env2 file2) = Some (stream file2) /\
   is_Some (fs w' !! result_path (allocate env2 file2))).
Proof.
  intros Hacc1 Hacc2 Hne Hserve Hcode1. cbn [serve dispatch] in Hserve.
  destruct (predict (Some model) env1 request1 w) as [x1 w1] eqn:Hrun1.
  destruct (predict (Some model) env2 request2 w1) as [x2 w2] eqn:Hrun2.
  injection Hserve as -> -> ->.
  assert (Hsame2 : forall file, accepted request2 file -> file = file2).
  { intros file [Hf _]. destruct Hacc2 as [Hf2 _]. congruence. }
  (* the first request *)
  pose proof (predict_exit_inv _ _ _ _ _ _ Hrun1) as Hexit1.
  destruct (accepted_exit _ _ _ _ _ _ _ Hacc1 Hexit1)
    as [Htry1 | (e & w0 & -> & _)]; [| discriminate Hcode1].
  destruct (predict_try_returns _ _ _ _ _ _ _
              (allocate_paths_differ env1 file1) Htry1)
    as (r0 & rest & img & enc & _ & _ & _ & _ & Hfs1 & _ & _).
  assert (Hup1 : fs w1 !! uploaded_filepath (allocate env1 file1)
                 = Some (stream file1)).
  { rewrite Hfs1. unfold saved.
    rewrite lookup_insert_ne by (pose proof (allocate_paths_differ env1 file1);
                                 congruence).
    apply lookup_insert_eq. }
  assert (Hres1 : is_Some (fs w1 !! result_path (allocate env1 file1))).
  { rewrite Hfs1, lookup_insert_eq. eauto. }
  (* the second request leaves them alone *)
  split; [| split].
  - rewrite <- Hup1. apply (predict_frame _ _ _ _ _ _ _ Hrun2).
    intros file Hacc. rewrite (Hsame2 file Hacc).
    split; [exact Hne | apply upload_is_no_result].
  - rewrite (predict_frame _ _ _ _ _ _ (result_path (allocate env1 file1)) Hrun2);
      [exact Hres1 |].
    intros file Hacc. rewrite (Hsame2 file Hacc). split.
    + intros Heq. now apply (upload_is_no_result env2 env1 file2 file1).
    + now apply result_paths_differ.
  - intros Hcode2.
    pose proof (predict_exit_inv _ _ _ _ _ _ Hrun2) as Hexit2.
    destruct (accepted_exit _ _ _ _ _ _ _ Hacc2 Hexit2)
      as [Htry2 | (e & w0 & -> & _)]; [| discriminate Hcode2].
    destruct (predict_try_returns _ _ _ _ _ _ _
                (allocate_paths_differ env2 file2) Htry2)
      as (r0' & rest' & img' & enc' & _ & _ & _ & _ & Hfs2 & _ & _).
    rewrite Hfs2. unfold saved. split.
    + rewrite lookup_insert_ne by (pose proof (allocate_paths_differ env2 file2);
                                   congruence).
      apply lookup_insert_eq.
    + rewrite lookup_insert_eq. eauto.
Qed.

Lemma X16_two_uploads_witness :
  let calls := [PostPredict Sample.env (Sample.post "cat.jpg");
                PostPredict Sample2.env_later (Sample.post "cat.jpg")] in
  let out := serve (Some Sample.model) calls Sample.world in
  accepted (Sample.post "cat.jpg") (Sample.upload "cat.jpg") /\
  fs (snd out) !! "static/uploads/cat_1700000000_3f2a9c1d.jpg"
    = Some (stream (Sample.upload "cat.jpg")) /\
  fs (snd out) !! "static/uploads/cat_1700000001_9d41c07b.jpg"
    = Some (stream (Sample.upload "cat.jpg")).
Proof.
  cbv zeta.
  assert (Hacc : accepted (Sample.post "cat.jpg") (Sample.upload "cat.jpg"))
    by (split; vm_compute; reflexivity).
  assert (Hne : uploaded_filepath (allocate Sample.env (Sample.upload "cat.jpg"))
                <> uploaded_filepath
                     (allocate Sample2.env_later (Sample.upload "cat.jpg")))
    by (vm_compute; discriminate).
  assert (Hserve :
            serve (Some Sample.model)
              [PostPredict Sample.env (Sample.post "cat.jpg");
               PostPredict Sample2.env_later (Sample.post "cat.jpg")]
              Sample.world
            = ([inr (Sample.reply_of
                       (predict (Some Sample.model) Sample.env
                          (Sample.post "cat.jpg") Sample.world));
                inr (Sample.reply_of
                       (predict (Some Sample.model) Sample2.env_later
                          (Sample.post "cat.jpg")
                          (snd (predict (Some Sample.model) Sample.env
                                  (Sample.post "cat.jpg") Sample.world))))],
               snd (serve (Some Sample.model)
                      [PostPredict Sample.env (Sample.post "cat.jpg");
                       PostPredict Sample2.env_later (Sample.post "cat.jpg")]
                      Sample.world)))
    by (vm_compute; reflexivity).
  destruct (X16_two_uploads _ _ _ _ _ _ _ _ _ _ _ Hacc Hacc Hne Hserve)
    as (Hfirst & _ & Hsecond); [vm_compute; reflexivity |].
  split; [exact Hacc |]. split; [exact Hfirst |].
  apply Hsecond. vm_compute. reflexivity.
Defined.
